(** * PerformanceReviewFHE: the decryption request/callback protocol

    A shallow embedding of the Solidity contract [PerformanceReviewFHE]
    (pragma ^0.8.24).  Storage mappings are finite maps read with [m @@ k],
    which gives an absent key the zero value of its type, as a Solidity
    mapping does.  Unsigned integers are [Z] with their range
    written out; arithmetic is the checked arithmetic of Solidity 0.8
    (a result out of range reverts with [Panic(0x11)]).  A contract function
    is a computation in a state-and-revert monad; a reverted call leaves the
    storage and the event log as they were. *)

From stdpp Require Import gmap list.

Open Scope Z_scope.

(** ** Machine integers *)

Definition MAX_UINT32 : Z := 2 ^ 32 - 1.
Definition MAX_UINT256 : Z := 2 ^ 256 - 1.

Definition is_uint32 (x : Z) : bool := (0 <=? x) && (x <=? MAX_UINT32).

(** ** Reverts *)

Inductive error : Type :=
| Invalid_request        (* require(reviewId != 0, "Invalid request") *)
| Already_calibrated     (* require(..., "Already calibrated") *)
| Group_not_found        (* require(..., "Group not found") *)
| Invalid_signatures     (* FHE.checkSignatures reverts *)
| Abi_decode_failed      (* abi.decode reverts *)
| Panic (code : Z).      (* 0x11 arithmetic, 0x32 array index *)

(** The names the specification gives to the three reverts it discusses. *)
Definition UnknownRequest : error := Invalid_request.
Definition AlreadyCalibrated : error := Already_calibrated.
Definition InvalidProof : error := Invalid_signatures.

Definition PANIC_ARITHMETIC : Z := 17.
Definition PANIC_INDEX : Z := 50.

Inductive result (A : Type) : Type :=
| Ok (a : A)
| Revert (e : error).
Arguments Ok {A} a.
Arguments Revert {A} e.

(** ** Encrypted values

    [euint32] is a user-defined value type over [bytes32]: a ciphertext
    handle.  *)

Definition euint32 : Type := Z.

(** Modelled from the spec: the library functions [FHE.isInitialized] and
    [FHE.toBytes32] are not part of the repository.  A ciphertext field is
    an opaque handle or the uninitialized sentinel, and the sentinel is the
    zero value that unwritten storage reads as. *)
Definition FHE_isInitialized (v : euint32) : bool := negb (v =? 0).
Definition FHE_toBytes32 (v : euint32) : Z := v.

(** ** Storage *)

Record EncryptedReview : Type := mkEncryptedReview {
  reviewId : Z;
  encryptedPerformanceScore : euint32;
  encryptedReviewerGroup : euint32;
  encryptedRevieweeGroup : euint32;
  encryptedCalibrationScore : euint32;
  timestamp : Z
}.

Record EncryptedBiasModel : Type := mkEncryptedBiasModel {
  modelId : Z;
  encryptedBiasThreshold : euint32;
  encryptedCalibrationRange : euint32
}.

Record DecryptedAnalysis : Type := mkDecryptedAnalysis {
  biasScore : Z;
  calibratedScore : Z;
  isBiased : bool;
  isCalibrated : bool
}.

(** The zero value of a storage type, and the read of a mapping slot. *)
Class Zero (A : Type) : Type := zero : A.

Global Instance Z_zero : Zero Z := 0.
Global Instance EncryptedReview_zero : Zero EncryptedReview :=
  mkEncryptedReview 0 0 0 0 0 0.
Global Instance EncryptedBiasModel_zero : Zero EncryptedBiasModel :=
  mkEncryptedBiasModel 0 0 0.
Global Instance DecryptedAnalysis_zero : Zero DecryptedAnalysis :=
  mkDecryptedAnalysis 0 0 false false.

Definition slot {A : Type} `{Zero A} (m : gmap Z A) (k : Z) : A :=
  default zero (m !! k).

Notation "m @@ k" := (slot m k) (at level 20).

Inductive Event : Type :=
| ReviewSubmitted (reviewId : Z) (timestamp : Z)
| AnalysisRequested (reviewId : Z)
| BiasDetected (reviewId : Z) (biasScore : Z)
| ReviewCalibrated (reviewId : Z).

(** The callback a decryption request names. *)
Inductive selector : Type :=
| analyzeBias_selector
| applyCalibration_selector
| decryptGroupStats_selector.

Record DecryptionRequest : Type := mkDecryptionRequest {
  dr_id : Z;
  dr_ciphertexts : list Z;
  dr_callback : selector
}.

Record State : Type := mkState {
  reviewCount : Z;
  modelCount : Z;
  performanceReviews : gmap Z EncryptedReview;
  biasModels : gmap Z EncryptedBiasModel;
  reviewAnalyses : gmap Z DecryptedAnalysis;
  encryptedGroupStats : gmap Z euint32;
  groupList : list Z;
  requestToReviewId : gmap Z Z;
  (* outside the contract: what was sent to the decryption oracle, and the
     log of emitted events *)
  decryptionRequests : list DecryptionRequest;
  events : list Event
}.

Definition initial : State :=
  mkState 0 0 ∅ ∅ ∅ ∅ [] ∅ [] [].

(** Field updates. *)

Definition set_reviewCount (n : Z) (s : State) : State :=
  mkState n (modelCount s) (performanceReviews s) (biasModels s)
    (reviewAnalyses s) (encryptedGroupStats s) (groupList s)
    (requestToReviewId s) (decryptionRequests s) (events s).

Definition set_modelCount (n : Z) (s : State) : State :=
  mkState (reviewCount s) n (performanceReviews s) (biasModels s)
    (reviewAnalyses s) (encryptedGroupStats s) (groupList s)
    (requestToReviewId s) (decryptionRequests s) (events s).

Definition set_performanceReviews (m : gmap Z EncryptedReview) (s : State) : State :=
  mkState (reviewCount s) (modelCount s) m (biasModels s)
    (reviewAnalyses s) (encryptedGroupStats s) (groupList s)
    (requestToReviewId s) (decryptionRequests s) (events s).

Definition set_biasModels (m : gmap Z EncryptedBiasModel) (s : State) : State :=
  mkState (reviewCount s) (modelCount s) (performanceReviews s) m
    (reviewAnalyses s) (encryptedGroupStats s) (groupList s)
    (requestToReviewId s) (decryptionRequests s) (events s).

Definition set_reviewAnalyses (m : gmap Z DecryptedAnalysis) (s : State) : State :=
  mkState (reviewCount s) (modelCount s) (performanceReviews s) (biasModels s)
    m (encryptedGroupStats s) (groupList s)
    (requestToReviewId s) (decryptionRequests s) (events s).

Definition set_requestToReviewId (m : gmap Z Z) (s : State) : State :=
  mkState (reviewCount s) (modelCount s) (performanceReviews s) (biasModels s)
    (reviewAnalyses s) (encryptedGroupStats s) (groupList s)
    m (decryptionRequests s) (events s).

Definition set_decryptionRequests (l : list DecryptionRequest) (s : State) : State :=
  mkState (reviewCount s) (modelCount s) (performanceReviews s) (biasModels s)
    (reviewAnalyses s) (encryptedGroupStats s) (groupList s)
    (requestToReviewId s) l (events s).

Definition set_events (l : list Event) (s : State) : State :=
  mkState (reviewCount s) (modelCount s) (performanceReviews s) (biasModels s)
    (reviewAnalyses s) (encryptedGroupStats s) (groupList s)
    (requestToReviewId s) (decryptionRequests s) l.

Definition with_encryptedCalibrationScore (v : euint32) (r : EncryptedReview)
  : EncryptedReview :=
  mkEncryptedReview (reviewId r) (encryptedPerformanceScore r)
    (encryptedReviewerGroup r) (encryptedRevieweeGroup r) v (timestamp r).

Definition with_biasScore (v : Z) (a : DecryptedAnalysis) : DecryptedAnalysis :=
  mkDecryptedAnalysis v (calibratedScore a) (isBiased a) (isCalibrated a).
Definition with_isBiased (b : bool) (a : DecryptedAnalysis) : DecryptedAnalysis :=
  mkDecryptedAnalysis (biasScore a) (calibratedScore a) b (isCalibrated a).
Definition with_calibratedScore (v : Z) (a : DecryptedAnalysis) : DecryptedAnalysis :=
  mkDecryptedAnalysis (biasScore a) v (isBiased a) (isCalibrated a).
Definition with_isCalibrated (b : bool) (a : DecryptedAnalysis) : DecryptedAnalysis :=
  mkDecryptedAnalysis (biasScore a) (calibratedScore a) (isBiased a) b.

(** ** The contract monad *)

Definition M (A : Type) : Type := State -> result (A * State).

Definition ret {A : Type} (a : A) : M A := fun s => Ok (a, s).

Definition bind {A B : Type} (m : M A) (k : A -> M B) : M B :=
  fun s => match m s with
           | Ok (a, s') => k a s'
           | Revert e => Revert e
           end.

Definition revert {A : Type} (e : error) : M A := fun _ => Revert e.

Definition gets {A : Type} (f : State -> A) : M A := fun s => Ok (f s, s).

Definition modify (f : State -> State) : M unit := fun s => Ok (tt, f s).

Definition require (b : bool) (e : error) : M unit :=
  if b then ret tt else revert e.

Definition emit (e : Event) : M unit :=
  modify (fun s => set_events (events s ++ [e]) s).

Notation "'let*' x ':=' m 'in' k" := (bind m (fun x => k))
  (at level 10, x name, m at level 100, k at level 200).
Notation "m ';;' k" := (bind m (fun _ => k))
  (at level 100, k at level 200, right associativity).

(** Checked arithmetic of Solidity 0.8. *)

Definition checked_add (max a b : Z) : M Z :=
  if a + b <=? max then ret (a + b) else revert (Panic PANIC_ARITHMETIC).

Definition checked_sub (a b : Z) : M Z :=
  if b <=? a then ret (a - b) else revert (Panic PANIC_ARITHMETIC).

(** [results[i]] on a memory array. *)
Definition index (l : list Z) (i : nat) : M Z :=
  match l !! i with
  | Some x => ret x
  | None => revert (Panic PANIC_INDEX)
  end.

(** ** What the contract takes from outside

    [FHE.asEuint32] (trivial encryption), [FHE.checkSignatures] (here as the
    test that decides whether it reverts) and [abi.decode] belong to the FHE
    library and to the ABI; the contract is read over any choice of them. *)

Class FHEVM : Type := {
  bytes : Type;
  FHE_asEuint32 : Z -> euint32;
  FHE_signaturesValid : Z -> bytes -> bytes -> bool;
  abi_decode_uint32_array : bytes -> option (list Z);
  abi_decode_uint32 : bytes -> option Z
}.

Section Contract.

Context `{env : FHEVM}.

Definition FHE_checkSignatures (requestId : Z) (cleartexts proof : bytes) : M unit :=
  require (FHE_signaturesValid requestId cleartexts proof) Invalid_signatures.

(** [abi.decode(cleartexts, (uint32[]))]: the uint32 words of the payload;
    it reverts on a payload that does not decode or that carries a word
    outside uint32. *)
Definition decoded (cleartexts : bytes) : option (list Z) :=
  match abi_decode_uint32_array cleartexts with
  | Some l => if forallb is_uint32 l then Some l else None
  | None => None
  end.

Definition decode_uint32_array (cleartexts : bytes) : M (list Z) :=
  match decoded cleartexts with
  | Some l => ret l
  | None => revert Abi_decode_failed
  end.

Definition decode_uint32 (cleartexts : bytes) : M Z :=
  match abi_decode_uint32 cleartexts with
  | Some x => if is_uint32 x then ret x else revert Abi_decode_failed
  | None => revert Abi_decode_failed
  end.

(** [FHE.requestDecryption(ciphertexts, selector)]: the oracle records the
    request and answers with the request id [reqId] of its choice. *)
Definition FHE_requestDecryption (ciphertexts : list Z) (callback : selector)
  (reqId : Z) : M Z :=
  modify (fun s => set_decryptionRequests
            (decryptionRequests s ++ [mkDecryptionRequest reqId ciphertexts callback]) s) ;;
  ret reqId.

Definition submitPerformanceReview
  (encryptedPerformanceScore encryptedReviewerGroup encryptedRevieweeGroup : euint32)
  (block_timestamp : Z) : M unit :=
  let* count := gets reviewCount in
  let* newId := checked_add MAX_UINT256 count 1 in
  modify (set_reviewCount newId) ;;
  modify (fun s => set_performanceReviews
    (<[newId := mkEncryptedReview newId encryptedPerformanceScore
                  encryptedReviewerGroup encryptedRevieweeGroup
                  (FHE_asEuint32 0) block_timestamp]> (performanceReviews s)) s) ;;
  modify (fun s => set_reviewAnalyses
    (<[newId := mkDecryptedAnalysis 0 0 false false]> (reviewAnalyses s)) s) ;;
  emit (ReviewSubmitted newId block_timestamp).

Definition addBiasModel (encryptedBiasThreshold encryptedCalibrationRange : euint32)
  : M unit :=
  let* count := gets modelCount in
  let* newId := checked_add MAX_UINT256 count 1 in
  modify (set_modelCount newId) ;;
  modify (fun s => set_biasModels
    (<[newId := mkEncryptedBiasModel newId encryptedBiasThreshold
                  encryptedCalibrationRange]> (biasModels s)) s).

Definition requestBiasAnalysis (reviewId modelId : Z) (oracleId : Z) : M unit :=
  let* review := gets (fun s => performanceReviews s @@ reviewId) in
  let* model := gets (fun s => biasModels s @@ modelId) in
  let ciphertexts :=
    [ FHE_toBytes32 (encryptedPerformanceScore review);
      FHE_toBytes32 (encryptedReviewerGroup review);
      FHE_toBytes32 (encryptedRevieweeGroup review);
      FHE_toBytes32 (encryptedBiasThreshold model) ] in
  let* reqId := FHE_requestDecryption ciphertexts analyzeBias_selector oracleId in
  modify (fun s => set_requestToReviewId (<[reqId := reviewId]> (requestToReviewId s)) s) ;;
  emit (AnalysisRequested reviewId).

Definition calculateGroupAverage (groupId : Z) : Z := 75.

(** [abs(uint32 x)]: [x >= 0 ? x : -x].  The negation is taken modulo 2^32;
    on an unsigned argument the test always holds. *)
Definition abs (x : Z) : Z :=
  if 0 <=? x then x else (- x) mod 2 ^ 32.

Definition analyzeBias (requestId : Z) (cleartexts proof : bytes) : M unit :=
  let* reviewId := gets (fun s => requestToReviewId s @@ requestId) in
  require (negb (reviewId =? 0)) Invalid_request ;;
  FHE_checkSignatures requestId cleartexts proof ;;
  let* results := decode_uint32_array cleartexts in
  let* performanceScore := index results 0 in
  let* reviewerGroup := index results 1 in
  let* revieweeGroup := index results 2 in
  let* biasThreshold := index results 3 in
  let* biasScore :=
    (if reviewerGroup =? revieweeGroup then ret 0
     else let* d := checked_sub performanceScore (calculateGroupAverage reviewerGroup) in
          ret (abs d)) in
  let isBiased := biasThreshold <? biasScore in
  modify (fun s => set_reviewAnalyses
    (<[reviewId := with_biasScore biasScore (reviewAnalyses s @@ reviewId)]>
       (reviewAnalyses s)) s) ;;
  modify (fun s => set_reviewAnalyses
    (<[reviewId := with_isBiased isBiased (reviewAnalyses s @@ reviewId)]>
       (reviewAnalyses s)) s) ;;
  if isBiased then emit (BiasDetected reviewId biasScore) else ret tt.

Definition requestCalibration (reviewId : Z) (encryptedAdjustment : euint32)
  (oracleId : Z) : M unit :=
  let* review := gets (fun s => performanceReviews s @@ reviewId) in
  require (eqb (FHE_isInitialized (encryptedCalibrationScore review)) false)
    Already_calibrated ;;
  let ciphertexts :=
    [ FHE_toBytes32 (encryptedPerformanceScore review);
      FHE_toBytes32 encryptedAdjustment ] in
  let* reqId := FHE_requestDecryption ciphertexts applyCalibration_selector oracleId in
  modify (fun s => set_requestToReviewId (<[reqId := reviewId]> (requestToReviewId s)) s).

Definition applyCalibration (requestId : Z) (cleartexts proof : bytes) : M unit :=
  let* reviewId := gets (fun s => requestToReviewId s @@ requestId) in
  require (negb (reviewId =? 0)) Invalid_request ;;
  FHE_checkSignatures requestId cleartexts proof ;;
  let* results := decode_uint32_array cleartexts in
  let* originalScore := index results 0 in
  let* adjustment := index results 1 in
  let* calibratedScore := checked_add MAX_UINT32 originalScore adjustment in
  modify (fun s => set_performanceReviews
    (<[reviewId := with_encryptedCalibrationScore (FHE_asEuint32 calibratedScore)
                     (performanceReviews s @@ reviewId)]> (performanceReviews s)) s) ;;
  modify (fun s => set_reviewAnalyses
    (<[reviewId := with_calibratedScore calibratedScore (reviewAnalyses s @@ reviewId)]>
       (reviewAnalyses s)) s) ;;
  modify (fun s => set_reviewAnalyses
    (<[reviewId := with_isCalibrated true (reviewAnalyses s @@ reviewId)]>
       (reviewAnalyses s)) s) ;;
  emit (ReviewCalibrated reviewId).

Definition getReviewAnalysis (reviewId : Z) : M (Z * Z * bool * bool) :=
  let* a := gets (fun s => reviewAnalyses s @@ reviewId) in
  ret (biasScore a, calibratedScore a, isBiased a, isCalibrated a).

Definition requestGroupStats (groupId : Z) (oracleId : Z) : M unit :=
  let* stats := gets (fun s => encryptedGroupStats s @@ groupId) in
  require (FHE_isInitialized stats) Group_not_found ;;
  let ciphertexts := [ FHE_toBytes32 stats ] in
  let* reqId := FHE_requestDecryption ciphertexts decryptGroupStats_selector oracleId in
  modify (fun s => set_requestToReviewId (<[reqId := groupId]> (requestToReviewId s)) s).

Definition decryptGroupStats (requestId : Z) (cleartexts proof : bytes) : M unit :=
  let* groupId := gets (fun s => requestToReviewId s @@ requestId) in
  FHE_checkSignatures requestId cleartexts proof ;;
  let* stats := decode_uint32 cleartexts in
  ret tt.

(** ** Transactions *)

Inductive call : Type :=
| SubmitPerformanceReview (score reviewerGroup revieweeGroup : euint32) (block_timestamp : Z)
| AddBiasModel (threshold range : euint32)
| RequestBiasAnalysis (reviewId modelId : Z) (oracleId : Z)
| AnalyzeBias (requestId : Z) (cleartexts proof : bytes)
| RequestCalibration (reviewId : Z) (encryptedAdjustment : euint32) (oracleId : Z)
| ApplyCalibration (requestId : Z) (cleartexts proof : bytes)
| RequestGroupStats (groupId : Z) (oracleId : Z)
| DecryptGroupStats (requestId : Z) (cleartexts proof : bytes).

Definition dispatch (c : call) : M unit :=
  match c with
  | SubmitPerformanceReview a b c t => submitPerformanceReview a b c t
  | AddBiasModel a b => addBiasModel a b
  | RequestBiasAnalysis r m o => requestBiasAnalysis r m o
  | AnalyzeBias r c p => analyzeBias r c p
  | RequestCalibration r a o => requestCalibration r a o
  | ApplyCalibration r c p => applyCalibration r c p
  | RequestGroupStats g o => requestGroupStats g o
  | DecryptGroupStats r c p => decryptGroupStats r c p
  end.

(** A transaction either commits the state its call produced or reverts and
    leaves the state as it was. *)
Definition transact (c : call) (s : State) : State * option error :=
  match dispatch c s with
  | Ok (_, s') => (s', None)
  | Revert e => (s, Some e)
  end.

Fixpoint run (cs : list call) (s : State) : State :=
  match cs with
  | [] => s
  | c :: cs' => run cs' (fst (transact c s))
  end.

Inductive reachable : State -> Prop :=
| reachable_initial : reachable initial
| reachable_transact (s : State) (c : call) :
    reachable s -> reachable (fst (transact c s)).

(** The request ids the oracle handed out in a sequence of calls. *)
Definition issued (c : call) : list Z :=
  match c with
  | RequestBiasAnalysis _ _ o => [o]
  | RequestCalibration _ _ o => [o]
  | RequestGroupStats _ o => [o]
  | _ => []
  end.

End Contract.

Definition issued_ids `{env : FHEVM} (cs : list call) : list Z :=
  flat_map issued cs.

(** The subject id and the request id of a call that asks for a decryption. *)
Definition subject_of `{env : FHEVM} (c : call) : option (Z * Z) :=
  match c with
  | RequestBiasAnalysis reviewId _ o => Some (reviewId, o)
  | RequestCalibration reviewId _ o => Some (reviewId, o)
  | RequestGroupStats groupId o => Some (groupId, o)
  | _ => None
  end.

(** A review id is created when [submitPerformanceReview] assigns it, which
    the [ReviewSubmitted] event records. *)
Definition created (s : State) (id : Z) : Prop :=
  exists ts, In (ReviewSubmitted id ts) (events s).


(** Review ids come from the counter: every id assigned so far lies between
    1 and [reviewCount]. *)
Definition ids_in_range (s : State) : Prop :=
  0 <= reviewCount s /\
  forall id ts, In (ReviewSubmitted id ts) (events s) -> 1 <= id <= reviewCount s.

(** The trivial encryption of a uint32 word is an initialized handle. *)
Definition encrypts_initialized `{env : FHEVM} : Prop :=
  forall v, is_uint32 v = true -> FHE_isInitialized (FHE_asEuint32 v) = true.

(** The calibration field of every created review holds an initialized
    handle. *)
Definition calibration_fields_set (s : State) : Prop :=
  forall id, created s id ->
    FHE_isInitialized (encryptedCalibrationScore (performanceReviews s @@ id)) = true.

(** The bias score the callback computes from the decoded words, when the
    subtraction does not underflow. *)
Definition bias_of (performanceScore reviewerGroup revieweeGroup : Z) : Z :=
  if reviewerGroup =? revieweeGroup then 0
  else performanceScore - calculateGroupAverage reviewerGroup.

(** The state a successful bias-analysis callback leaves, and the one a
    successful calibration callback leaves. *)

Definition analysed (id score threshold : Z) (s : State) : State :=
  let a := reviewAnalyses s @@ id in
  let s1 := set_reviewAnalyses
              (<[id := mkDecryptedAnalysis score (calibratedScore a)
                         (threshold <? score) (isCalibrated a)]> (reviewAnalyses s)) s in
  if threshold <? score
  then set_events (events s ++ [BiasDetected id score]) s1
  else s1.

Definition calibrated `{env : FHEVM} (id score : Z) (s : State) : State :=
  let a := reviewAnalyses s @@ id in
  set_events (events s ++ [ReviewCalibrated id])
    (set_reviewAnalyses
       (<[id := mkDecryptedAnalysis (biasScore a) score (isBiased a) true]>
          (reviewAnalyses s))
       (set_performanceReviews
          (<[id := with_encryptedCalibrationScore (FHE_asEuint32 score)
                     (performanceReviews s @@ id)]> (performanceReviews s)) s)).

(** A concrete environment to run the contract in: payloads are the decoded
    words themselves, the proof [[1]] is the one that verifies, and the
    trivial encryption of [v] has the handle [v + 1]. *)
Definition sample_env : FHEVM := {|
  bytes := list Z;
  FHE_asEuint32 := fun v => v + 1;
  FHE_signaturesValid := fun _ _ proof =>
    match proof with [1] => true | _ => false end;
  abi_decode_uint32_array := fun l => Some l;
  abi_decode_uint32 := fun l => head l
|}.

(** A review has been submitted and the analysis of it requested; the oracle
    answered with request id 7. *)
Definition sample_calls : list (call (env := sample_env)) :=
  [SubmitPerformanceReview 101 102 103 1000; AddBiasModel 104 105;
   RequestBiasAnalysis 1 1 7].

Definition sample_state : State := run sample_calls initial.


(** The state before the analysis was requested. *)
Definition sample_calls_before : list (call (env := sample_env)) :=
  [SubmitPerformanceReview 101 102 103 1000; AddBiasModel 104 105].

(** The sample state with statistics stored for group 1 (the contract has
    no function that stores them). *)
Definition stats_state : State :=
  mkState (reviewCount sample_state) (modelCount sample_state)
    (performanceReviews sample_state) (biasModels sample_state)
    (reviewAnalyses sample_state) {[ 1 := 900 ]} [1]
    (requestToReviewId sample_state) (decryptionRequests sample_state)
    (events sample_state).

Definition is_callback `{env : FHEVM} (c : call) : bool :=
  match c with
  | AnalyzeBias _ _ _ | ApplyCalibration _ _ _ => true
  | _ => false
  end.

(** ** The rest of the contract *)

(** [FHE.add] and [FHE.div] on ciphertext handles, which
    [calculateDepartmentStats] uses, belong to the FHE library. *)
Class FHE_arith : Type := {
  FHE_add : euint32 -> euint32 -> euint32;
  FHE_div : euint32 -> euint32 -> euint32
}.

(** [uint32(x)] on a uint256: the explicit conversion keeps the low 32 bits. *)
Definition to_uint32 (x : Z) : Z := x mod 2 ^ 32.

(** [calculateDepartmentStats] is pure: the loop adds the scores from left
    to right onto the encryption of 0, and the total is divided by the
    encryption of the length. *)
Definition calculateDepartmentStats `{env : FHEVM} `{arith : FHE_arith}
  (scores : list euint32) : euint32 :=
  let total := fold_left FHE_add scores (FHE_asEuint32 0) in
  FHE_div total (FHE_asEuint32 (to_uint32 (Z.of_nat (length scores)))).

Definition bytes32ToUint (b : Z) : Z := b.

(** The sum of a list of integers. *)
Definition sumZ (l : list Z) : Z := fold_right Z.add 0 l.

(** The state a call leaves when it does not revert, and what it has
    checked on the way. *)
Definition effect_of `{env : FHEVM} (c : call) (s s' : State) : Prop :=
  match c with
  | SubmitPerformanceReview score rg re ts =>
      reviewCount s + 1 <= MAX_UINT256 /\
      s' = set_events (events s ++ [ReviewSubmitted (reviewCount s + 1) ts])
             (set_reviewAnalyses
                (<[reviewCount s + 1 := mkDecryptedAnalysis 0 0 false false]>
                   (reviewAnalyses s))
                (set_performanceReviews
                   (<[reviewCount s + 1 :=
                        mkEncryptedReview (reviewCount s + 1) score rg re
                          (FHE_asEuint32 0) ts]> (performanceReviews s))
                   (set_reviewCount (reviewCount s + 1) s)))
  | AddBiasModel th range =>
      modelCount s + 1 <= MAX_UINT256 /\
      s' = set_biasModels
             (<[modelCount s + 1 := mkEncryptedBiasModel (modelCount s + 1) th range]>
                (biasModels s))
             (set_modelCount (modelCount s + 1) s)
  | RequestBiasAnalysis r m o =>
      s' = set_events (events s ++ [AnalysisRequested r])
             (set_requestToReviewId (<[o := r]> (requestToReviewId s))
                (set_decryptionRequests
                   (decryptionRequests s ++
                    [mkDecryptionRequest o
                       [encryptedPerformanceScore (performanceReviews s @@ r);
                        encryptedReviewerGroup (performanceReviews s @@ r);
                        encryptedRevieweeGroup (performanceReviews s @@ r);
                        encryptedBiasThreshold (biasModels s @@ m)]
                       analyzeBias_selector]) s))
  | AnalyzeBias t cleartexts proof =>
      requestToReviewId s @@ t ≠ 0 /\
      FHE_signaturesValid t cleartexts proof = true /\
      exists p rg re th rest,
        decoded cleartexts = Some (p :: rg :: re :: th :: rest) /\
        (rg = re \/ calculateGroupAverage rg <= p) /\
        s' = analysed (requestToReviewId s @@ t) (bias_of p rg re) th s
  | RequestCalibration r adj o =>
      FHE_isInitialized (encryptedCalibrationScore (performanceReviews s @@ r)) = false /\
      s' = set_requestToReviewId (<[o := r]> (requestToReviewId s))
             (set_decryptionRequests
                (decryptionRequests s ++
                 [mkDecryptionRequest o
                    [encryptedPerformanceScore (performanceReviews s @@ r); adj]
                    applyCalibration_selector]) s)
  | ApplyCalibration t cleartexts proof =>
      requestToReviewId s @@ t ≠ 0 /\
      FHE_signaturesValid t cleartexts proof = true /\
      exists o a rest,
        decoded cleartexts = Some (o :: a :: rest) /\
        o + a <= MAX_UINT32 /\
        s' = calibrated (requestToReviewId s @@ t) (o + a) s
  | RequestGroupStats g o =>
      FHE_isInitialized (encryptedGroupStats s @@ g) = true /\
      s' = set_requestToReviewId (<[o := g]> (requestToReviewId s))
             (set_decryptionRequests
                (decryptionRequests s ++
                 [mkDecryptionRequest o [encryptedGroupStats s @@ g]
                    decryptGroupStats_selector]) s)
  | DecryptGroupStats t cleartexts proof =>
      FHE_signaturesValid t cleartexts proof = true /\
      (exists x, abi_decode_uint32 cleartexts = Some x /\ is_uint32 x = true) /\
      s' = s
  end.

(** The ids of the [ReviewSubmitted] events of a log, in the order of the
    log. *)
Definition submitted_ids (evs : list Event) : list Z :=
  flat_map (fun e => match e with ReviewSubmitted id _ => [id] | _ => [] end) evs.

(** Two review records that differ at most in the calibration field. *)
Definition same_submission (r r' : EncryptedReview) : Prop :=
  reviewId r = reviewId r' /\
  encryptedPerformanceScore r = encryptedPerformanceScore r' /\
  encryptedReviewerGroup r = encryptedReviewerGroup r' /\
  encryptedRevieweeGroup r = encryptedRevieweeGroup r' /\
  timestamp r = timestamp r'.

(** What the stored analysis results satisfy in every reachable state. *)
Definition analysis_consistent `{env : FHEVM} (s : State) (id : Z) : Prop :=
  0 <= biasScore (reviewAnalyses s @@ id) <= MAX_UINT32 /\
  0 <= calibratedScore (reviewAnalyses s @@ id) <= MAX_UINT32 /\
  (isBiased (reviewAnalyses s @@ id) = true -> 1 <= biasScore (reviewAnalyses s @@ id)) /\
  (isCalibrated (reviewAnalyses s @@ id) = false ->
     calibratedScore (reviewAnalyses s @@ id) = 0) /\
  (isCalibrated (reviewAnalyses s @@ id) = true ->
     encryptedCalibrationScore (performanceReviews s @@ id)
       = FHE_asEuint32 (calibratedScore (reviewAnalyses s @@ id))).

(** A library for the sample environment: the handle [h] decrypts to
    [h - 1], addition wraps at 2^32 and division is that of integers. *)
Definition sample_decrypt (h : euint32) : Z := h - 1.

Definition sample_arith : FHE_arith := {|
  FHE_add := fun a b => (sample_decrypt a + sample_decrypt b) mod 2 ^ 32 + 1;
  FHE_div := fun a b => sample_decrypt a / sample_decrypt b + 1
|}.

(** ** Unfolding the monad *)

Ltac unfold_contract :=
  unfold FHE_checkSignatures, FHE_requestDecryption, decode_uint32_array,
    decode_uint32, checked_add, checked_sub, index in *;
  unfold require, emit in *;
  unfold bind, ret, revert, gets, modify in *.

Section Callbacks.

Context `{env : FHEVM}.

Lemma slot_insert_eq {A : Type} `{Zero A} (m : gmap Z A) (k : Z) (x : A) :
  <[k := x]> m @@ k = x.
Proof. unfold slot. by rewrite lookup_insert_eq. Qed.

Lemma slot_insert_ne {A : Type} `{Zero A} (m : gmap Z A) (k j : Z) (x : A) :
  k ≠ j -> <[k := x]> m @@ j = m @@ j.
Proof. intros Hne. unfold slot. by rewrite lookup_insert_ne. Qed.

Lemma slot_None {A : Type} `{Zero A} (m : gmap Z A) (k : Z) :
  m !! k = None -> m @@ k = zero.
Proof. intros E. unfold slot. by rewrite E. Qed.

Lemma is_uint32_spec (x : Z) : is_uint32 x = true <-> 0 <= x <= MAX_UINT32.
Proof. unfold is_uint32. rewrite andb_true_iff, !Z.leb_le. tauto. Qed.

Lemma abs_uint (x : Z) : 0 <= x -> abs x = x.
Proof. intros H. unfold abs. destruct (Z.leb_spec 0 x); [done | lia]. Qed.

Lemma decoded_inv (cleartexts : bytes) (l : list Z) :
  decoded cleartexts = Some l ->
  abi_decode_uint32_array cleartexts = Some l /\ forallb is_uint32 l = true.
Proof.
  unfold decoded. destruct (abi_decode_uint32_array cleartexts) as [l' |]; [| done].
  destruct (forallb is_uint32 l') eqn:E; [| done]. by intros [= <-].
Qed.

Lemma analyzeBias_unknown (s : State) (requestId : Z) (cleartexts proof : bytes) :
  requestToReviewId s @@ requestId = 0 ->
  analyzeBias requestId cleartexts proof s = Revert Invalid_request.
Proof. intros H. unfold analyzeBias. unfold_contract. by rewrite H. Qed.

Lemma applyCalibration_unknown (s : State) (requestId : Z) (cleartexts proof : bytes) :
  requestToReviewId s @@ requestId = 0 ->
  applyCalibration requestId cleartexts proof s = Revert Invalid_request.
Proof. intros H. unfold applyCalibration. unfold_contract. by rewrite H. Qed.

Lemma analyzeBias_bad_proof (s : State) (requestId : Z) (cleartexts proof : bytes) :
  requestToReviewId s @@ requestId ≠ 0 ->
  FHE_signaturesValid requestId cleartexts proof = false ->
  analyzeBias requestId cleartexts proof s = Revert Invalid_signatures.
Proof.
  intros Hid Hp. unfold analyzeBias. unfold_contract.
  destruct (Z.eqb_spec (requestToReviewId s @@ requestId) 0); [done |].
  simpl. by rewrite Hp.
Qed.

Lemma applyCalibration_bad_proof (s : State) (requestId : Z) (cleartexts proof : bytes) :
  requestToReviewId s @@ requestId ≠ 0 ->
  FHE_signaturesValid requestId cleartexts proof = false ->
  applyCalibration requestId cleartexts proof s = Revert Invalid_signatures.
Proof.
  intros Hid Hp. unfold applyCalibration. unfold_contract.
  destruct (Z.eqb_spec (requestToReviewId s @@ requestId) 0); [done |].
  simpl. by rewrite Hp.
Qed.

Lemma analyzeBias_ok (s : State) (requestId : Z) (cleartexts proof : bytes)
    (p rg re th : Z) (rest : list Z) :
  requestToReviewId s @@ requestId ≠ 0 ->
  FHE_signaturesValid requestId cleartexts proof = true ->
  decoded cleartexts = Some (p :: rg :: re :: th :: rest) ->
  rg = re \/ calculateGroupAverage rg <= p ->
  analyzeBias requestId cleartexts proof s =
    Ok (tt, analysed (requestToReviewId s @@ requestId) (bias_of p rg re) th s).
Proof.
  intros Hid Hp Hd Hsub. unfold analyzeBias. unfold_contract.
  destruct (decoded_inv _ _ Hd) as [_ Hr].
  destruct (Z.eqb_spec (requestToReviewId s @@ requestId) 0); [done |].
  simpl. rewrite Hp, Hd. simpl.
  unfold analysed, bias_of.
  destruct (Z.eqb_spec rg re) as [-> | Hne].
  - simpl. rewrite slot_insert_eq, insert_insert_eq. simpl.
    destruct (th <? 0); reflexivity.
  - destruct Hsub as [? | Hsub]; [done |].
    destruct (Z.leb_spec (calculateGroupAverage rg) p); [| lia].
    simpl. rewrite abs_uint by lia.
    rewrite slot_insert_eq, insert_insert_eq. simpl.
    destruct (th <? p - calculateGroupAverage rg); reflexivity.
Qed.

Lemma applyCalibration_ok (s : State) (requestId : Z) (cleartexts proof : bytes)
    (o a : Z) (rest : list Z) :
  requestToReviewId s @@ requestId ≠ 0 ->
  FHE_signaturesValid requestId cleartexts proof = true ->
  decoded cleartexts = Some (o :: a :: rest) ->
  o + a <= MAX_UINT32 ->
  applyCalibration requestId cleartexts proof s =
    Ok (tt, calibrated (requestToReviewId s @@ requestId) (o + a) s).
Proof.
  intros Hid Hp Hd Hsum. unfold applyCalibration. unfold_contract.
  destruct (Z.eqb_spec (requestToReviewId s @@ requestId) 0); [done |].
  simpl. rewrite Hp, Hd. simpl.
  destruct (Z.leb_spec (o + a) MAX_UINT32); [| lia].
  unfold calibrated. simpl.
  rewrite slot_insert_eq, insert_insert_eq. reflexivity.
Qed.

Lemma analyzeBias_underflows (s : State) (requestId : Z) (cleartexts proof : bytes)
    (p rg re th : Z) (rest : list Z) :
  requestToReviewId s @@ requestId ≠ 0 ->
  FHE_signaturesValid requestId cleartexts proof = true ->
  decoded cleartexts = Some (p :: rg :: re :: th :: rest) ->
  rg ≠ re ->
  p < calculateGroupAverage rg ->
  analyzeBias requestId cleartexts proof s = Revert (Panic PANIC_ARITHMETIC).
Proof.
  intros Hid Hp Hd Hne Hlt. unfold analyzeBias. unfold_contract.
  destruct (Z.eqb_spec (requestToReviewId s @@ requestId) 0); [done |].
  simpl. rewrite Hp, Hd. simpl.
  destruct (Z.eqb_spec rg re); [done |].
  destruct (Z.leb_spec (calculateGroupAverage rg) p); [lia | done].
Qed.

(** What a bias-analysis callback that goes through has established. *)
Lemma analyzeBias_inv (s s' : State) (requestId : Z) (cleartexts proof : bytes) (u : unit) :
  analyzeBias requestId cleartexts proof s = Ok (u, s') ->
  requestToReviewId s @@ requestId ≠ 0 /\
  FHE_signaturesValid requestId cleartexts proof = true /\
  exists p rg re th rest,
    decoded cleartexts = Some (p :: rg :: re :: th :: rest) /\
    (rg = re \/ calculateGroupAverage rg <= p) /\
    s' = analysed (requestToReviewId s @@ requestId) (bias_of p rg re) th s.
Proof.
  intros H.
  destruct (decide (requestToReviewId s @@ requestId = 0)) as [E | Hid].
  { by rewrite analyzeBias_unknown in H. }
  destruct (FHE_signaturesValid requestId cleartexts proof) eqn:Hp.
  2: { by rewrite analyzeBias_bad_proof in H. }
  destruct (decoded cleartexts) as [l |] eqn:Hd.
  2: { unfold analyzeBias in H. unfold_contract.
       destruct (Z.eqb_spec (requestToReviewId s @@ requestId) 0); [done |].
       simpl in H. by rewrite Hp, Hd in H. }
  destruct l as [| p [| rg [| re [| th rest]]]].
  1-4: unfold analyzeBias in H; unfold_contract;
       destruct (Z.eqb_spec (requestToReviewId s @@ requestId) 0); [done |];
       simpl in H; by rewrite Hp, Hd in H.
  destruct (decide (rg = re)) as [Heq | Hne].
  - rewrite (analyzeBias_ok s requestId cleartexts proof p rg re th rest) in H
      by auto.
    injection H as <-. eauto 12.
  - destruct (Z.le_gt_cases (calculateGroupAverage rg) p) as [Hle | Hgt].
    + rewrite (analyzeBias_ok s requestId cleartexts proof p rg re th rest) in H
        by auto.
      injection H as <-. eauto 12.
    + rewrite (analyzeBias_underflows s requestId cleartexts proof p rg re th rest)
        in H by auto.
      discriminate.
Qed.

Lemma applyCalibration_overflows (s : State) (requestId : Z) (cleartexts proof : bytes)
    (o a : Z) (rest : list Z) :
  requestToReviewId s @@ requestId ≠ 0 ->
  FHE_signaturesValid requestId cleartexts proof = true ->
  decoded cleartexts = Some (o :: a :: rest) ->
  MAX_UINT32 < o + a ->
  applyCalibration requestId cleartexts proof s = Revert (Panic PANIC_ARITHMETIC).
Proof.
  intros Hid Hp Hd Hlt. unfold applyCalibration. unfold_contract.
  destruct (Z.eqb_spec (requestToReviewId s @@ requestId) 0); [done |].
  simpl. rewrite Hp, Hd. simpl.
  destruct (Z.leb_spec (o + a) MAX_UINT32); [lia | done].
Qed.

(** What a calibration callback that goes through has established. *)
Lemma applyCalibration_inv (s s' : State) (requestId : Z) (cleartexts proof : bytes)
    (u : unit) :
  applyCalibration requestId cleartexts proof s = Ok (u, s') ->
  requestToReviewId s @@ requestId ≠ 0 /\
  FHE_signaturesValid requestId cleartexts proof = true /\
  exists o a rest,
    decoded cleartexts = Some (o :: a :: rest) /\
    o + a <= MAX_UINT32 /\
    s' = calibrated (requestToReviewId s @@ requestId) (o + a) s.
Proof.
  intros H.
  destruct (decide (requestToReviewId s @@ requestId = 0)) as [E | Hid].
  { by rewrite applyCalibration_unknown in H. }
  destruct (FHE_signaturesValid requestId cleartexts proof) eqn:Hp.
  2: { by rewrite applyCalibration_bad_proof in H. }
  destruct (decoded cleartexts) as [l |] eqn:Hd.
  2: { unfold applyCalibration in H. unfold_contract.
       destruct (Z.eqb_spec (requestToReviewId s @@ requestId) 0); [done |].
       simpl in H. by rewrite Hp, Hd in H. }
  destruct l as [| o [| a rest]].
  1-2: unfold applyCalibration in H; unfold_contract;
       destruct (Z.eqb_spec (requestToReviewId s @@ requestId) 0); [done |];
       simpl in H; by rewrite Hp, Hd in H.
  destruct (Z.le_gt_cases (o + a) MAX_UINT32) as [Hle | Hgt].
  - rewrite (applyCalibration_ok s requestId cleartexts proof o a rest) in H by auto.
    injection H as <-. eauto 12.
  - rewrite (applyCalibration_overflows s requestId cleartexts proof o a rest)
      in H by auto.
    discriminate.
Qed.

End Callbacks.

(** ** The registry across transactions *)

Section Registry.

Context `{env : FHEVM}.

Lemma analysed_registry (id score th : Z) (s : State) :
  requestToReviewId (analysed id score th s) = requestToReviewId s.
Proof. unfold analysed. by destruct (th <? score). Qed.

(** Only a call that asks for a decryption writes the registry, and it
    writes the slot of the request id the oracle returned. *)
Lemma transact_registry (c : call) (s : State) (t : Z) :
  ~ In t (issued c) ->
  requestToReviewId (fst (transact c s)) !! t = requestToReviewId s !! t.
Proof.
  intros Hni. unfold transact.
  destruct (dispatch c s) as [[u s'] |] eqn:E; [| done]. simpl.
  destruct c; simpl in E, Hni.
  - unfold submitPerformanceReview in E. unfold_contract.
    destruct (reviewCount s + 1 <=? MAX_UINT256); by simplify_eq.
  - unfold addBiasModel in E. unfold_contract.
    destruct (modelCount s + 1 <=? MAX_UINT256); by simplify_eq.
  - unfold requestBiasAnalysis in E. unfold_contract. simplify_eq. simpl.
    apply lookup_insert_ne. tauto.
  - apply analyzeBias_inv in E as (_ & _ & p & rg & re & th & rest & _ & _ & ->).
    by rewrite analysed_registry.
  - unfold requestCalibration in E. unfold_contract.
    destruct (eqb _ false); simplify_eq. simpl.
    apply lookup_insert_ne. tauto.
  - apply applyCalibration_inv in E as (_ & _ & o & a & rest & _ & _ & ->).
    done.
  - unfold requestGroupStats in E. unfold_contract.
    destruct (FHE_isInitialized _); simplify_eq. simpl.
    apply lookup_insert_ne. tauto.
  - unfold decryptGroupStats in E. unfold_contract.
    destruct (FHE_signaturesValid _ _ _); simpl in E; [| done].
    destruct (abi_decode_uint32 _) as [x |]; [| done].
    destruct (is_uint32 x); by simplify_eq.
Qed.

(** No call removes an entry of the registry. *)
Lemma transact_registry_kept (c : call) (s : State) (t : Z) :
  is_Some (requestToReviewId s !! t) ->
  is_Some (requestToReviewId (fst (transact c s)) !! t).
Proof.
  intros Hs. destruct (in_dec Z.eq_dec t (issued c)) as [Hin | Hni].
  - unfold transact.
    destruct (dispatch c s) as [[u s'] |] eqn:E; [| done]. simpl.
    destruct c; simpl in Hin; try done; simpl in E;
      destruct Hin as [<- | []].
    + unfold requestBiasAnalysis in E. unfold_contract. simplify_eq. simpl.
      rewrite lookup_insert_eq. eauto.
    + unfold requestCalibration in E. unfold_contract.
      destruct (eqb _ false); simplify_eq. simpl.
      rewrite lookup_insert_eq. eauto.
    + unfold requestGroupStats in E. unfold_contract.
      destruct (FHE_isInitialized _); simplify_eq. simpl.
      rewrite lookup_insert_eq. eauto.
  - by rewrite transact_registry.
Qed.

Lemma run_registry (cs : list call) (s : State) (t : Z) :
  ~ In t (issued_ids cs) ->
  requestToReviewId (run cs s) !! t = requestToReviewId s !! t.
Proof.
  revert s. induction cs as [| c cs IH]; intros s Hni; [done |].
  simpl. unfold issued_ids in Hni. simpl in Hni. rewrite in_app_iff in Hni.
  rewrite IH by tauto. apply transact_registry. tauto.
Qed.

End Registry.

(** ** Tokens: rejection of unknown ones, and no consumption *)

Section Tokens.

Context `{env : FHEVM}.

Lemma analyzeBias_not_unknown (s : State) (t : Z) (cleartexts proof : bytes) :
  requestToReviewId s @@ t ≠ 0 ->
  analyzeBias t cleartexts proof s ≠ Revert Invalid_request.
Proof.
  intros Hid. unfold analyzeBias. unfold_contract.
  destruct (Z.eqb_spec (requestToReviewId s @@ t) 0); [done |]. simpl.
  destruct (FHE_signaturesValid t cleartexts proof); simpl; [| done].
  destruct (decoded cleartexts) as [l |]; [| done].
  destruct l as [| p [| rg [| re [| th rest]]]]; simpl; try done.
  destruct (rg =? re); simpl.
  - by destruct (th <? 0).
  - destruct (calculateGroupAverage rg <=? p); simpl; [| done].
    by destruct (th <? abs (p - calculateGroupAverage rg)).
Qed.

Lemma applyCalibration_not_unknown (s : State) (t : Z) (cleartexts proof : bytes) :
  requestToReviewId s @@ t ≠ 0 ->
  applyCalibration t cleartexts proof s ≠ Revert Invalid_request.
Proof.
  intros Hid. unfold applyCalibration. unfold_contract.
  destruct (Z.eqb_spec (requestToReviewId s @@ t) 0); [done |]. simpl.
  destruct (FHE_signaturesValid t cleartexts proof); simpl; [| done].
  destruct (decoded cleartexts) as [l |]; [| done].
  destruct l as [| o [| a rest]]; simpl; try done.
  by destruct (o + a <=? MAX_UINT32).
Qed.

Lemma transact_Ok (c : call) (s : State) :
  snd (transact c s) = None ->
  exists u, dispatch c s = Ok (u, fst (transact c s)).
Proof.
  unfold transact. destruct (dispatch c s) as [[u s'] |]; [| done].
  simpl. eauto.
Qed.

Lemma transact_of_Ok (c : call) (s s' : State) (u : unit) :
  dispatch c s = Ok (u, s') -> transact c s = (s', None).
Proof. intros E. unfold transact. by rewrite E. Qed.

Lemma transact_of_Revert (c : call) (s : State) (e : error) :
  dispatch c s = Revert e -> transact c s = (s, Some e).
Proof. intros E. unfold transact. by rewrite E. Qed.

(** C5: a callback, for bias analysis or for calibration, that carries a
    request id the registry never issued reverts with UnknownRequest, and
    the state (reviews, analysis results, registry, event log) is the one
    before the call. *)
Theorem unissued_token_rejected (cs : list call) (t : Z) (cleartexts proof : bytes) :
  ~ In t (issued_ids cs) ->
  transact (AnalyzeBias t cleartexts proof) (run cs initial)
    = (run cs initial, Some UnknownRequest) /\
  transact (ApplyCalibration t cleartexts proof) (run cs initial)
    = (run cs initial, Some UnknownRequest).
Proof.
  intros Hni.
  assert (requestToReviewId (run cs initial) @@ t = 0) as E.
  { apply (slot_None (A := Z)). by rewrite run_registry. }
  split; apply transact_of_Revert; simpl.
  - by apply analyzeBias_unknown.
  - by apply applyCalibration_unknown.
Qed.

(** C1, as the contract has it: a callback that is processed leaves the
    registry as it was, so the request id still resolves to the same
    subject, and the same callback delivered again is processed again. *)
Theorem callback_token_not_consumed (c : call) (s : State) :
  is_callback c = true ->
  snd (transact c s) = None ->
  requestToReviewId (fst (transact c s)) = requestToReviewId s /\
  snd (transact c (fst (transact c s))) = None.
Proof.
  intros Hc Hok. apply transact_Ok in Hok as [u E].
  rewrite (transact_of_Ok _ _ _ _ E). simpl.
  destruct c; try discriminate; simpl in E.
  - apply analyzeBias_inv in E
      as (Hid & Hp & p & rg & re & th & rest & Hd & Hsub & ->).
    rewrite analysed_registry. split; [done |].
    erewrite transact_of_Ok; [done |]. simpl.
    apply analyzeBias_ok with (rest := rest); try done.
    by rewrite analysed_registry.
  - apply applyCalibration_inv in E
      as (Hid & Hp & o & a & rest & Hd & Hsum & ->).
    split; [done |].
    erewrite transact_of_Ok; [done |]. simpl.
    by apply applyCalibration_ok with (rest := rest).
Qed.

(** C6, as the contract has it: a callback for a registered request id whose
    proof does not verify reverts with InvalidProof and changes nothing, the
    registry included; the request id stays registered, and a later delivery
    with it is not rejected as an unknown request: delivered with a proof
    that verifies and a payload that decodes to the words the callback
    reads, with no underflow of the subtraction (bias analysis) or overflow
    of the sum (calibration), it is processed. *)
Theorem failed_proof_keeps_token (s : State) (t : Z) (cleartexts proof : bytes) :
  requestToReviewId s @@ t ≠ 0 ->
  FHE_signaturesValid t cleartexts proof = false ->
  transact (AnalyzeBias t cleartexts proof) s = (s, Some InvalidProof) /\
  transact (ApplyCalibration t cleartexts proof) s = (s, Some InvalidProof) /\
  (forall cleartexts' proof',
     snd (transact (AnalyzeBias t cleartexts' proof')
            (fst (transact (AnalyzeBias t cleartexts proof) s)))
       ≠ Some UnknownRequest /\
     snd (transact (ApplyCalibration t cleartexts' proof')
            (fst (transact (ApplyCalibration t cleartexts proof) s)))
       ≠ Some UnknownRequest) /\
  (forall cleartexts' proof' p rg re th rest,
     FHE_signaturesValid t cleartexts' proof' = true ->
     decoded cleartexts' = Some (p :: rg :: re :: th :: rest) ->
     rg = re \/ calculateGroupAverage rg <= p ->
     snd (transact (AnalyzeBias t cleartexts' proof')
            (fst (transact (AnalyzeBias t cleartexts proof) s)))
       = None) /\
  (forall cleartexts' proof' x a rest,
     FHE_signaturesValid t cleartexts' proof' = true ->
     decoded cleartexts' = Some (x :: a :: rest) ->
     x + a <= MAX_UINT32 ->
     snd (transact (ApplyCalibration t cleartexts' proof')
            (fst (transact (ApplyCalibration t cleartexts proof) s)))
       = None).
Proof.
  intros Hid Hp.
  assert (transact (AnalyzeBias t cleartexts proof) s = (s, Some InvalidProof)) as E1.
  { apply transact_of_Revert. simpl. by apply analyzeBias_bad_proof. }
  assert (transact (ApplyCalibration t cleartexts proof) s = (s, Some InvalidProof)) as E2.
  { apply transact_of_Revert. simpl. by apply applyCalibration_bad_proof. }
  rewrite E1, E2. split; [done |]. split; [done |]. simpl. split; [| split].
  - intros ct' pf'. unfold transact. simpl. split.
    + pose proof (analyzeBias_not_unknown s t ct' pf' Hid) as Hn.
      destruct (analyzeBias t ct' pf' s) as [[u s'] | e]; simpl; [done |].
      intros [= ->]. by apply Hn.
    + pose proof (applyCalibration_not_unknown s t ct' pf' Hid) as Hn.
      destruct (applyCalibration t ct' pf' s) as [[u s'] | e]; simpl; [done |].
      intros [= ->]. by apply Hn.
  - intros ct' pf' p rg re th rest Hp' Hd Hsub.
    erewrite transact_of_Ok; [done |]. simpl.
    by apply analyzeBias_ok with (rest := rest).
  - intros ct' pf' x a rest Hp' Hd Hsum.
    erewrite transact_of_Ok; [done |]. simpl.
    by apply applyCalibration_ok with (rest := rest).
Qed.

End Tokens.

Lemma unissued_token_rejected_witness :
  ~ In 9 (issued_ids sample_calls) /\
  transact (AnalyzeBias (env := sample_env) 9 [90; 2; 1; 10] [1]) (run sample_calls initial)
    = (run sample_calls initial, Some UnknownRequest) /\
  transact (ApplyCalibration (env := sample_env) 9 [90; 2; 1; 10] [1]) (run sample_calls initial)
    = (run sample_calls initial, Some UnknownRequest).
Proof.
  assert (~ In 9 (issued_ids sample_calls)) as H.
  { simpl. intros [E | []]. discriminate E. }
  split; [exact H |].
  exact (unissued_token_rejected (env := sample_env) sample_calls 9 _ _ H).
Defined.

(** C1 fails on the contract: the callback for request id 7 is processed,
    the entry for 7 is still in the registry afterwards, and the same
    callback delivered a second time is processed again rather than
    rejected with UnknownRequest. *)
Lemma replayed_callback_accepted :
  snd (transact (AnalyzeBias (env := sample_env) 7 [90; 2; 1; 10] [1]) sample_state) = None /\
  requestToReviewId
    (fst (transact (AnalyzeBias (env := sample_env) 7 [90; 2; 1; 10] [1]) sample_state)) !! 7
    = Some 1 /\
  snd (transact (AnalyzeBias (env := sample_env) 7 [90; 2; 1; 10] [1])
         (fst (transact (AnalyzeBias (env := sample_env) 7 [90; 2; 1; 10] [1]) sample_state)))
    <> Some UnknownRequest.
Proof. vm_compute. repeat split; discriminate. Qed.

Lemma callback_token_not_consumed_witness :
  is_callback (ApplyCalibration (env := sample_env) 7 [80; 5] [1]) = true /\
  snd (transact (ApplyCalibration (env := sample_env) 7 [80; 5] [1]) sample_state) = None /\
  requestToReviewId
    (fst (transact (ApplyCalibration (env := sample_env) 7 [80; 5] [1]) sample_state))
    = requestToReviewId sample_state /\
  snd (transact (ApplyCalibration (env := sample_env) 7 [80; 5] [1])
         (fst (transact (ApplyCalibration (env := sample_env) 7 [80; 5] [1]) sample_state)))
    = None.
Proof.
  assert (is_callback (ApplyCalibration (env := sample_env) 7 [80; 5] [1]) = true) as H1
    by reflexivity.
  assert (snd (transact (ApplyCalibration (env := sample_env) 7 [80; 5] [1]) sample_state)
          = None) as H2 by (vm_compute; reflexivity).
  split; [exact H1 |]. split; [exact H2 |].
  exact (callback_token_not_consumed (env := sample_env) _ sample_state H1 H2).
Defined.

(** C6 fails on the contract: after the callback for request id 7 was
    rejected for its proof, the request id is still registered, and the
    delivery that follows with a proof that verifies is processed. *)
Lemma failed_proof_token_replayable :
  transact (AnalyzeBias (env := sample_env) 7 [90; 2; 1; 10] [0]) sample_state
    = (sample_state, Some InvalidProof) /\
  snd (transact (AnalyzeBias (env := sample_env) 7 [90; 2; 1; 10] [1])
         (fst (transact (AnalyzeBias (env := sample_env) 7 [90; 2; 1; 10] [0]) sample_state)))
    <> Some UnknownRequest /\
  snd (transact (AnalyzeBias (env := sample_env) 7 [90; 2; 1; 10] [1])
         (fst (transact (AnalyzeBias (env := sample_env) 7 [90; 2; 1; 10] [0]) sample_state)))
    = None.
Proof. vm_compute. repeat split; discriminate. Qed.

Lemma failed_proof_keeps_token_witness :
  requestToReviewId sample_state @@ 7 ≠ 0 /\
  FHE_signaturesValid (FHEVM := sample_env) 7 [90; 2; 1; 10] [0] = false /\
  transact (AnalyzeBias (env := sample_env) 7 [90; 2; 1; 10] [0]) sample_state
    = (sample_state, Some InvalidProof) /\
  transact (ApplyCalibration (env := sample_env) 7 [90; 2; 1; 10] [0]) sample_state
    = (sample_state, Some InvalidProof) /\
  snd (transact (AnalyzeBias (env := sample_env) 7 [90; 2; 1; 10] [1])
         (fst (transact (AnalyzeBias (env := sample_env) 7 [90; 2; 1; 10] [0])
                 sample_state)))
    = None.
Proof.
  assert (requestToReviewId sample_state @@ 7 ≠ 0) as H1 by (vm_compute; discriminate).
  assert (FHE_signaturesValid (FHEVM := sample_env) 7 [90; 2; 1; 10] [0] = false) as H2
    by reflexivity.
  split; [exact H1 |]. split; [exact H2 |].
  destruct (failed_proof_keeps_token (env := sample_env) sample_state 7
              _ _ H1 H2) as (E1 & E2 & _ & E4 & _).
  split; [exact E1 |]. split; [exact E2 |].
  apply (E4 [90; 2; 1; 10] [1] 90 2 1 10 []); [reflexivity | reflexivity |].
  right. vm_compute. discriminate.
Defined.

(** ** What the callbacks compute and what they leave alone *)

Section Results.

Context `{env : FHEVM}.

Lemma analysed_slot (id score th : Z) (s : State) :
  reviewAnalyses (analysed id score th s) @@ id =
    mkDecryptedAnalysis score (calibratedScore (reviewAnalyses s @@ id))
      (th <? score) (isCalibrated (reviewAnalyses s @@ id)).
Proof.
  unfold analysed. destruct (th <? score); simpl; by rewrite slot_insert_eq.
Qed.

Lemma analysed_reviews (id score th : Z) (s : State) :
  performanceReviews (analysed id score th s) = performanceReviews s.
Proof. unfold analysed. by destruct (th <? score). Qed.

Lemma analysed_other (id score th j : Z) (s : State) :
  j ≠ id ->
  reviewAnalyses (analysed id score th s) !! j = reviewAnalyses s !! j.
Proof.
  intros Hne. unfold analysed.
  destruct (th <? score); simpl; by rewrite lookup_insert_ne.
Qed.

Lemma decoded_uint32 (cleartexts : bytes) (l : list Z) (x : Z) :
  decoded cleartexts = Some l -> In x l -> 0 <= x <= MAX_UINT32.
Proof.
  intros Hd Hin. apply decoded_inv in Hd as [_ Hall].
  rewrite forallb_forall in Hall. by apply is_uint32_spec, Hall.
Qed.

(** C3 against the contract: with the groups equal the stored bias score is
    0, and with the groups different and the score at or above the group
    average it is the absolute difference; with the groups different and the
    score below the group average the subtraction on uint32 underflows and
    the callback reverts with an arithmetic panic, so no bias score is
    computed there. *)
Theorem bias_score_underflow_reverts (s : State) (t : Z) (cleartexts proof : bytes)
    (p rg re th : Z) (rest : list Z) :
  requestToReviewId s @@ t ≠ 0 ->
  FHE_signaturesValid t cleartexts proof = true ->
  decoded cleartexts = Some (p :: rg :: re :: th :: rest) ->
  (rg = re ->
     exists s', analyzeBias t cleartexts proof s = Ok (tt, s') /\
       biasScore (reviewAnalyses s' @@ (requestToReviewId s @@ t)) = 0) /\
  (rg ≠ re -> calculateGroupAverage rg <= p ->
     exists s', analyzeBias t cleartexts proof s = Ok (tt, s') /\
       biasScore (reviewAnalyses s' @@ (requestToReviewId s @@ t))
         = Z.abs (p - calculateGroupAverage rg)) /\
  (rg ≠ re -> p < calculateGroupAverage rg ->
     transact (AnalyzeBias t cleartexts proof) s = (s, Some (Panic PANIC_ARITHMETIC))).
Proof.
  intros Hid Hp Hd. repeat split.
  - intros ->. eexists. split.
    + apply analyzeBias_ok with (p := p) (rg := re) (re := re) (th := th)
                                (rest := rest); auto.
    + rewrite analysed_slot. simpl. unfold bias_of. by rewrite Z.eqb_refl.
  - intros Hne Hle. eexists. split.
    + apply analyzeBias_ok with (p := p) (rg := rg) (re := re) (th := th)
                                (rest := rest); auto.
    + rewrite analysed_slot. simpl. unfold bias_of.
      destruct (Z.eqb_spec rg re); [done | lia].
  - intros Hne Hlt. apply transact_of_Revert. simpl.
    by apply analyzeBias_underflows with (p := p) (rg := rg) (re := re)
                                         (th := th) (rest := rest).
Qed.

(** C4, as the contract has it: when the sum of the two decoded uint32 words
    fits in uint32, the callback stores it as calibratedScore (it is then
    also the sum modulo 2^32) and sets isCalibrated; when the sum exceeds
    2^32 - 1 the checked addition reverts with an arithmetic panic and
    nothing is stored. *)
Theorem calibrated_score_checked_sum (s : State) (t : Z) (cleartexts proof : bytes)
    (o a : Z) (rest : list Z) :
  requestToReviewId s @@ t ≠ 0 ->
  FHE_signaturesValid t cleartexts proof = true ->
  decoded cleartexts = Some (o :: a :: rest) ->
  (o + a <= MAX_UINT32 ->
     exists s', applyCalibration t cleartexts proof s = Ok (tt, s') /\
       calibratedScore (reviewAnalyses s' @@ (requestToReviewId s @@ t)) = o + a /\
       o + a = (o + a) mod 2 ^ 32 /\
       isCalibrated (reviewAnalyses s' @@ (requestToReviewId s @@ t)) = true) /\
  (MAX_UINT32 < o + a ->
     transact (ApplyCalibration t cleartexts proof) s
       = (s, Some (Panic PANIC_ARITHMETIC))).
Proof.
  intros Hid Hp Hd. split.
  - intros Hle. eexists. split.
    + by apply applyCalibration_ok with (o := o) (a := a) (rest := rest).
    + unfold calibrated. simpl. rewrite slot_insert_eq. simpl.
      pose proof (decoded_uint32 _ _ o Hd ltac:(simpl; auto)).
      pose proof (decoded_uint32 _ _ a Hd ltac:(simpl; auto)).
      repeat split. rewrite Z.mod_small; [done |].
      unfold MAX_UINT32 in *. lia.
  - intros Hlt. apply transact_of_Revert. simpl.
    by apply applyCalibration_overflows with (o := o) (a := a) (rest := rest).
Qed.

(** C9: a bias-analysis callback that is processed leaves every review
    record as it was, leaves calibratedScore and isCalibrated of the
    review's analysis result as they were, and leaves the analysis result of
    every other review as it was. *)
Theorem analyzeBias_frame (s s' : State) (t : Z) (cleartexts proof : bytes) :
  analyzeBias t cleartexts proof s = Ok (tt, s') ->
  performanceReviews s' = performanceReviews s /\
  calibratedScore (reviewAnalyses s' @@ (requestToReviewId s @@ t))
    = calibratedScore (reviewAnalyses s @@ (requestToReviewId s @@ t)) /\
  isCalibrated (reviewAnalyses s' @@ (requestToReviewId s @@ t))
    = isCalibrated (reviewAnalyses s @@ (requestToReviewId s @@ t)) /\
  forall j, j ≠ requestToReviewId s @@ t ->
    reviewAnalyses s' !! j = reviewAnalyses s !! j.
Proof.
  intros E.
  apply analyzeBias_inv in E
    as (Hid & Hp & p & rg & re & th & rest & Hd & Hsub & ->).
  rewrite analysed_reviews, analysed_slot. simpl.
  repeat split. intros j Hj. by apply analysed_other.
Qed.

End Results.

Lemma bias_score_underflow_reverts_witness :
  requestToReviewId sample_state @@ 7 ≠ 0 /\
  FHE_signaturesValid (FHEVM := sample_env) 7 [50; 2; 1; 10] [1] = true /\
  decoded (env := sample_env) [50; 2; 1; 10] = Some [50; 2; 1; 10] /\
  transact (AnalyzeBias (env := sample_env) 7 [50; 2; 1; 10] [1]) sample_state
    = (sample_state, Some (Panic PANIC_ARITHMETIC)).
Proof.
  assert (requestToReviewId sample_state @@ 7 ≠ 0) as H1 by (vm_compute; discriminate).
  assert (FHE_signaturesValid (FHEVM := sample_env) 7 [50; 2; 1; 10] [1] = true) as H2
    by reflexivity.
  assert (decoded (env := sample_env) [50; 2; 1; 10] = Some [50; 2; 1; 10]) as H3
    by reflexivity.
  split; [exact H1 |]. split; [exact H2 |]. split; [exact H3 |].
  destruct (bias_score_underflow_reverts (env := sample_env) sample_state 7
              _ _ 50 2 1 10 [] H1 H2 H3) as (_ & _ & E).
  apply E; [discriminate | reflexivity].
Defined.

(** C4 fails on the contract: for originalScore 2^32 - 1 and adjustment 2
    the callback reverts; the stored calibratedScore is not the wrapped sum
    and isCalibrated is not set. *)
Lemma calibration_overflow_not_wrapped :
  snd (transact (ApplyCalibration (env := sample_env) 7 [4294967295; 2] [1]) sample_state)
    = Some (Panic PANIC_ARITHMETIC) /\
  calibratedScore
    (reviewAnalyses
       (fst (transact (ApplyCalibration (env := sample_env) 7 [4294967295; 2] [1])
               sample_state)) @@ 1)
    <> (4294967295 + 2) mod 2 ^ 32 /\
  isCalibrated
    (reviewAnalyses
       (fst (transact (ApplyCalibration (env := sample_env) 7 [4294967295; 2] [1])
               sample_state)) @@ 1)
    = false.
Proof. vm_compute. repeat split; discriminate. Qed.

Lemma calibrated_score_checked_sum_witness :
  requestToReviewId sample_state @@ 7 ≠ 0 /\
  FHE_signaturesValid (FHEVM := sample_env) 7 [80; 5] [1] = true /\
  decoded (env := sample_env) [80; 5] = Some [80; 5] /\
  exists s', applyCalibration (env := sample_env) 7 [80; 5] [1] sample_state = Ok (tt, s') /\
    calibratedScore (reviewAnalyses s' @@ (requestToReviewId sample_state @@ 7)) = 80 + 5 /\
    80 + 5 = (80 + 5) mod 2 ^ 32 /\
    isCalibrated (reviewAnalyses s' @@ (requestToReviewId sample_state @@ 7)) = true.
Proof.
  assert (requestToReviewId sample_state @@ 7 ≠ 0) as H1 by (vm_compute; discriminate).
  assert (FHE_signaturesValid (FHEVM := sample_env) 7 [80; 5] [1] = true) as H2
    by reflexivity.
  assert (decoded (env := sample_env) [80; 5] = Some [80; 5]) as H3 by reflexivity.
  split; [exact H1 |]. split; [exact H2 |]. split; [exact H3 |].
  destruct (calibrated_score_checked_sum (env := sample_env) sample_state 7
              _ _ 80 5 [] H1 H2 H3) as (E & _).
  apply E. vm_compute. discriminate.
Defined.

Lemma analyzeBias_frame_witness :
  analyzeBias (env := sample_env) 7 [90; 2; 1; 10] [1] sample_state
    = Ok (tt, analysed 1 15 10 sample_state) /\
  performanceReviews (analysed 1 15 10 sample_state) = performanceReviews sample_state /\
  calibratedScore (reviewAnalyses (analysed 1 15 10 sample_state)
                     @@ (requestToReviewId sample_state @@ 7))
    = calibratedScore (reviewAnalyses sample_state @@ (requestToReviewId sample_state @@ 7)).
Proof.
  assert (analyzeBias (env := sample_env) 7 [90; 2; 1; 10] [1] sample_state
          = Ok (tt, analysed 1 15 10 sample_state)) as H by (vm_compute; reflexivity).
  split; [exact H |].
  destruct (analyzeBias_frame (env := sample_env) sample_state _ 7 _ _ H) as (E1 & E2 & _).
  split; [exact E1 | exact E2].
Defined.

(** ** Reachable states *)

Section Reachable.

Context `{env : FHEVM}.

(** A review created in a state whose log got one more event, other than
    its own submission, was created before. *)
Ltac earlier_event Hc :=
  let ts := fresh "ts" in
  destruct Hc as [ts Hc]; simpl in Hc; rewrite in_app_iff in Hc;
  destruct Hc as [Hc | [Hc | []]]; [by exists ts | simplify_eq].

Lemma reachable_run (cs : list call) (s : State) :
  reachable s -> reachable (run cs s).
Proof.
  revert s. induction cs as [| c cs IH]; intros s Hs; [done |].
  simpl. apply IH. by constructor.
Qed.

Lemma created_snoc (s s' : State) (e : Event) (id : Z) :
  events s' = events s ++ [e] ->
  (forall ts, e ≠ ReviewSubmitted id ts) ->
  created s' id -> created s id.
Proof.
  intros Hev Hne [ts Hin]. rewrite Hev, in_app_iff in Hin.
  destruct Hin as [Hin | [E | []]]; [by exists ts |]. by destruct (Hne ts).
Qed.

Lemma created_same (s s' : State) (id : Z) :
  events s' = events s -> created s' id -> created s id.
Proof. intros Hev [ts Hin]. exists ts. by rewrite <- Hev. Qed.

Lemma analysed_created (rid score th : Z) (s : State) (id : Z) :
  created (analysed rid score th s) id -> created s id.
Proof.
  unfold analysed. destruct (th <? score).
  - by apply (created_snoc s _ (BiasDetected rid score) id).
  - by apply created_same.
Qed.

Lemma analysed_reviewCount (rid score th : Z) (s : State) :
  reviewCount (analysed rid score th s) = reviewCount s.
Proof. unfold analysed. by destruct (th <? score). Qed.

Lemma reachable_ids_in_range (s : State) : reachable s -> ids_in_range s.
Proof.
  intros Hr. induction Hr as [| s c Hs IH].
  - split; [done | intros ? ? []].
  - destruct IH as [IH0 IH]. unfold ids_in_range, transact. destruct (dispatch c s) as [[u s'] |] eqn:E; [| done].
    simpl. destruct c; simpl in E.
    + unfold submitPerformanceReview in E. unfold_contract.
      destruct (Z.leb_spec (reviewCount s + 1) MAX_UINT256); simplify_eq.
      split; simpl; [lia |].
      intros id ts Hin. rewrite in_app_iff in Hin.
      destruct Hin as [Hin | [[= <- <-] | []]]; [| lia].
      apply IH in Hin. lia.
    + unfold addBiasModel in E. unfold_contract.
      destruct (modelCount s + 1 <=? MAX_UINT256); by simplify_eq.
    + unfold requestBiasAnalysis in E. unfold_contract. simplify_eq.
      split; simpl; [done |].
      intros id ts Hin. rewrite in_app_iff in Hin.
      destruct Hin as [Hin | [[=] | []]]. by apply IH in Hin.
    + apply analyzeBias_inv in E as (_ & _ & p & rg & re & th & rest & _ & _ & ->).
      split; [by rewrite analysed_reviewCount |].
      intros id ts Hin. rewrite analysed_reviewCount.
      apply (IH id ts).
      unfold analysed in Hin. destruct (th <? bias_of p rg re); simpl in Hin.
      * rewrite in_app_iff in Hin. by destruct Hin as [Hin | [[=] | []]].
      * done.
    + unfold requestCalibration in E. unfold_contract.
      destruct (eqb _ false); by simplify_eq.
    + apply applyCalibration_inv in E as (_ & _ & o & a & rest & _ & _ & ->).
      split; simpl; [done |].
      intros id ts Hin. rewrite in_app_iff in Hin.
      destruct Hin as [Hin | [[=] | []]]. by apply IH in Hin.
    + unfold requestGroupStats in E. unfold_contract.
      destruct (FHE_isInitialized _); by simplify_eq.
    + unfold decryptGroupStats in E. unfold_contract.
      destruct (FHE_signaturesValid _ _ _); simpl in E; [| done].
      destruct (abi_decode_uint32 _) as [x |]; [| done].
      destruct (is_uint32 x); by simplify_eq.
Qed.

Lemma reachable_calibration_fields_set (s : State) :
  encrypts_initialized -> reachable s -> calibration_fields_set s.
Proof.
  intros Hinit Hr. induction Hr as [| s c Hs IH].
  - intros id [ts []].
  - unfold transact. destruct (dispatch c s) as [[u s'] |] eqn:E; [| done].
    simpl. destruct c; simpl in E.
    + unfold submitPerformanceReview in E. unfold_contract.
      destruct (Z.leb_spec (reviewCount s + 1) MAX_UINT256); simplify_eq.
      intros id Hc. simpl.
      destruct (decide (reviewCount s + 1 = id)) as [<- | Hne].
      * rewrite slot_insert_eq. simpl. by apply Hinit.
      * rewrite slot_insert_ne by done. apply IH. by earlier_event Hc.
    + unfold addBiasModel in E. unfold_contract.
      destruct (modelCount s + 1 <=? MAX_UINT256); by simplify_eq.
    + unfold requestBiasAnalysis in E. unfold_contract. simplify_eq.
      intros id Hc. simpl. apply IH. by earlier_event Hc.
    + apply analyzeBias_inv in E as (_ & _ & p & rg & re & th & rest & _ & _ & ->).
      intros id Hc. rewrite analysed_reviews. apply IH.
      by apply analysed_created in Hc.
    + unfold requestCalibration in E. unfold_contract.
      destruct (eqb _ false); by simplify_eq.
    + apply applyCalibration_inv in E as (_ & _ & o & a & rest & Hd & Hsum & ->).
      intros id Hc. simpl.
      destruct (decide (requestToReviewId s @@ requestId = id)) as [<- | Hne].
      * rewrite slot_insert_eq. simpl. apply Hinit, is_uint32_spec.
        pose proof (decoded_uint32 _ _ o Hd ltac:(simpl; auto)).
        pose proof (decoded_uint32 _ _ a Hd ltac:(simpl; auto)). lia.
      * rewrite slot_insert_ne by done. apply IH. by earlier_event Hc.
    + unfold requestGroupStats in E. unfold_contract.
      destruct (FHE_isInitialized _); by simplify_eq.
    + unfold decryptGroupStats in E. unfold_contract.
      destruct (FHE_signaturesValid _ _ _); simpl in E; [| done].
      destruct (abi_decode_uint32 _) as [x |]; [| done].
      destruct (is_uint32 x); by simplify_eq.
Qed.






End Reachable.

(** ** Calibration guard, review ids, request kinds, queries *)

Section Claims.

Context `{env : FHEVM}.

Lemma requestCalibration_guard (s : State) (id : Z) (adj : euint32) (o : Z) :
  FHE_isInitialized (encryptedCalibrationScore (performanceReviews s @@ id)) = true ->
  requestCalibration id adj o s = Revert Already_calibrated.
Proof. intros H. unfold requestCalibration. unfold_contract. by rewrite H. Qed.

Lemma requestCalibration_passes (s : State) (id : Z) (adj : euint32) (o : Z) :
  FHE_isInitialized (encryptedCalibrationScore (performanceReviews s @@ id)) = false ->
  exists s', requestCalibration id adj o s = Ok (tt, s').
Proof. intros H. unfold requestCalibration. unfold_contract. rewrite H. simpl. eauto. Qed.

(** Whatever handle the trivial encryption of 0 is, the guard of
    [requestCalibration] goes wrong on one side: either a review that was
    just created is refused as already calibrated, or a review whose
    calibration completed with the score 0 is accepted for calibration
    again. *)
Lemma calibration_guard_dilemma :
  (forall s a b c ts s1 adj o,
     submitPerformanceReview a b c ts s = Ok (tt, s1) ->
     requestCalibration (reviewCount s1) adj o s1 = Revert Already_calibrated)
  \/
  (forall s t cleartexts proof rest s1 adj o,
     decoded cleartexts = Some (0 :: 0 :: rest) ->
     applyCalibration t cleartexts proof s = Ok (tt, s1) ->
     exists s2, requestCalibration (requestToReviewId s @@ t) adj o s1 = Ok (tt, s2)).
Proof.
  destruct (FHE_isInitialized (FHE_asEuint32 0)) eqn:E0; [left | right].
  - intros s a b c ts s1 adj o E.
    unfold submitPerformanceReview in E. unfold_contract.
    destruct (Z.leb_spec (reviewCount s + 1) MAX_UINT256); simplify_eq.
    apply requestCalibration_guard. simpl. by rewrite slot_insert_eq.
  - intros s t ct pf rest s1 adj o Hd E.
    apply applyCalibration_inv in E as (_ & _ & o' & a' & rest' & Hd' & _ & ->).
    rewrite Hd in Hd'. simplify_eq.
    apply requestCalibration_passes. simpl. by rewrite slot_insert_eq.
Qed.

(** C2 against the contract: [submitPerformanceReview] stores the trivial
    encryption of 0, an initialized handle, in the calibration field, so for
    every review that has been created, calibrated or not,
    [requestCalibration] reverts with AlreadyCalibrated. *)
Theorem created_review_refused_calibration (s : State) (id : Z) (adj : euint32) (o : Z) :
  encrypts_initialized ->
  reachable s ->
  created s id ->
  transact (RequestCalibration id adj o) s = (s, Some AlreadyCalibrated).
Proof.
  intros Hinit Hs Hc. apply transact_of_Revert. simpl.
  apply requestCalibration_guard.
  by apply reachable_calibration_fields_set.
Qed.


Lemma request_registers (c : call) (s s1 : State) (id o : Z) (u : unit) :
  subject_of c = Some (id, o) ->
  dispatch c s = Ok (u, s1) ->
  requestToReviewId s1 !! o = Some id.
Proof.
  intros Hc E. destruct c; simpl in Hc; simplify_eq; simpl in E.
  - unfold requestBiasAnalysis in E. unfold_contract. simplify_eq. simpl.
    by rewrite lookup_insert_eq.
  - unfold requestCalibration in E. unfold_contract.
    destruct (eqb _ false); simplify_eq. simpl.
    by rewrite lookup_insert_eq.
  - unfold requestGroupStats in E. unfold_contract.
    destruct (FHE_isInitialized _); simplify_eq. simpl.
    by rewrite lookup_insert_eq.
Qed.

(** C7, as the contract has it: a request, of whichever of the three kinds,
    stores under its request id the subject id alone; both callbacks resolve
    the request id to that id and treat it as a review id, whatever call
    registered it. *)
Theorem registry_keeps_subject_only (c : call) (s s1 : State) (id o : Z) :
  subject_of c = Some (id, o) ->
  dispatch c s = Ok (tt, s1) ->
  id ≠ 0 ->
  requestToReviewId s1 !! o = Some id /\
  (forall cleartexts proof p rg re th rest,
     FHE_signaturesValid o cleartexts proof = true ->
     decoded cleartexts = Some (p :: rg :: re :: th :: rest) ->
     rg = re \/ calculateGroupAverage rg <= p ->
     analyzeBias o cleartexts proof s1 = Ok (tt, analysed id (bias_of p rg re) th s1)) /\
  (forall cleartexts proof x a rest,
     FHE_signaturesValid o cleartexts proof = true ->
     decoded cleartexts = Some (x :: a :: rest) ->
     x + a <= MAX_UINT32 ->
     applyCalibration o cleartexts proof s1 = Ok (tt, calibrated id (x + a) s1)).
Proof.
  intros Hc E Hid.
  pose proof (request_registers c s s1 id o tt Hc E) as Hreg.
  assert (requestToReviewId s1 @@ o = id) as Hslot.
  { unfold slot. by rewrite Hreg. }
  split; [done |]. split.
  - intros ct pf p rg re th rest Hp Hd Hsub. rewrite <- Hslot.
    apply analyzeBias_ok with (rest := rest); [by rewrite Hslot | done..].
  - intros ct pf x a rest Hp Hd Hsum. rewrite <- Hslot.
    apply applyCalibration_ok with (rest := rest); [by rewrite Hslot | done..].
Qed.

Lemma getReviewAnalysis_empty_slot (s : State) (id : Z) :
  reviewAnalyses s !! id = None ->
  getReviewAnalysis id s = Ok ((0, 0, false, false), s).
Proof.
  intros H. unfold getReviewAnalysis. unfold_contract.
  by rewrite (slot_None _ _ H).
Qed.

Lemma getReviewAnalysis_total (s : State) (id : Z) :
  getReviewAnalysis id s =
    Ok ((biasScore (reviewAnalyses s @@ id), calibratedScore (reviewAnalyses s @@ id),
         isBiased (reviewAnalyses s @@ id), isCalibrated (reviewAnalyses s @@ id)), s).
Proof. reflexivity. Qed.


End Claims.

Lemma sample_env_encrypts_initialized : encrypts_initialized (env := sample_env).
Proof.
  intros v Hv. apply is_uint32_spec in Hv. unfold FHE_isInitialized. simpl.
  destruct (Z.eqb_spec (v + 1) 0); [lia | reflexivity].
Qed.

Lemma created_review_refused_calibration_witness :
  encrypts_initialized (env := sample_env) /\
  reachable (env := sample_env) sample_state /\
  created sample_state 1 /\
  transact (RequestCalibration (env := sample_env) 1 55 8) sample_state
    = (sample_state, Some AlreadyCalibrated).
Proof.
  assert (reachable (env := sample_env) sample_state) as H2
    by exact (reachable_run (env := sample_env) sample_calls initial reachable_initial).
  assert (created sample_state 1) as H3 by (exists 1000; vm_compute; auto).
  split; [exact sample_env_encrypts_initialized |].
  split; [exact H2 |]. split; [exact H3 |].
  exact (created_review_refused_calibration (env := sample_env) sample_state 1 55 8
           sample_env_encrypts_initialized H2 H3).
Defined.



(** C7 fails on the contract: request id 7 was issued for a bias analysis
    (the request named the [analyzeBias] callback), and the calibration
    callback delivered with it is processed: it calibrates review 1. *)
Lemma analysis_token_accepted_by_calibration :
  decryptionRequests sample_state
    = [mkDecryptionRequest 7 [101; 102; 103; 104] analyzeBias_selector] /\
  snd (transact (ApplyCalibration (env := sample_env) 7 [80; 5] [1]) sample_state) = None /\
  getReviewAnalysis 1
    (fst (transact (ApplyCalibration (env := sample_env) 7 [80; 5] [1]) sample_state))
    = Ok ((0, 85, false, true),
          fst (transact (ApplyCalibration (env := sample_env) 7 [80; 5] [1]) sample_state)).
Proof. vm_compute. repeat split. Qed.

(** The example of C7 itself, from a state in which group 1 has statistics:
    the request id 8 of a group-statistics request for group 1 is taken by
    the bias-analysis callback as a request about review 1. *)
Lemma group_token_taken_as_review :
  exists s1 s2,
    requestGroupStats 1 8 stats_state = Ok (tt, s1) /\
    analyzeBias (env := sample_env) 8 [90; 2; 1; 10] [1] s1 = Ok (tt, s2) /\
    getReviewAnalysis 1 s2 = Ok ((15, 0, true, false), s2).
Proof.
  eexists. eexists. split; [vm_compute; reflexivity |].
  split; vm_compute; reflexivity.
Qed.

Lemma registry_keeps_subject_only_witness :
  subject_of (RequestBiasAnalysis (env := sample_env) 1 1 7) = Some (1, 7) /\
  dispatch (RequestBiasAnalysis (env := sample_env) 1 1 7) (run sample_calls_before initial)
    = Ok (tt, sample_state) /\
  1 ≠ 0 /\
  requestToReviewId sample_state !! 7 = Some 1 /\
  applyCalibration (env := sample_env) 7 [80; 5] [1] sample_state
    = Ok (tt, calibrated (env := sample_env) 1 (80 + 5) sample_state).
Proof.
  assert (subject_of (RequestBiasAnalysis (env := sample_env) 1 1 7) = Some (1, 7)) as H1
    by reflexivity.
  assert (dispatch (RequestBiasAnalysis (env := sample_env) 1 1 7)
            (run sample_calls_before initial) = Ok (tt, sample_state)) as H2
    by (vm_compute; reflexivity).
  assert (1 ≠ 0) as H3 by discriminate.
  split; [exact H1 |]. split; [exact H2 |]. split; [exact H3 |].
  destruct (registry_keeps_subject_only (env := sample_env) _ _ sample_state 1 7
              H1 H2 H3) as (E1 & _ & E3).
  split; [exact E1 |].
  apply (E3 [80; 5] [1] 80 5 []); [reflexivity | reflexivity |].
  vm_compute. discriminate.
Defined.



(** ** The contract on the sample state *)

(** Same group: the bias score is 0 and the review is not flagged. *)
Example same_group_scores_zero :
  getReviewAnalysis 1
    (fst (transact (AnalyzeBias (env := sample_env) 7 [80; 1; 1; 10] [1]) sample_state))
  = Ok ((0, 0, false, false),
        fst (transact (AnalyzeBias (env := sample_env) 7 [80; 1; 1; 10] [1]) sample_state)).
Proof. vm_compute. reflexivity. Qed.

(** Score 90 against the group average 75 with threshold 10: bias score 15,
    flagged, and the event is emitted. *)
Example other_group_scores_difference :
  getReviewAnalysis 1
    (fst (transact (AnalyzeBias (env := sample_env) 7 [90; 2; 1; 10] [1]) sample_state))
  = Ok ((15, 0, true, false),
        fst (transact (AnalyzeBias (env := sample_env) 7 [90; 2; 1; 10] [1]) sample_state)) /\
  events (fst (transact (AnalyzeBias (env := sample_env) 7 [90; 2; 1; 10] [1]) sample_state))
  = events sample_state ++ [BiasDetected 1 15].
Proof. vm_compute. split; reflexivity. Qed.

(** Score 80 with adjustment 5: calibrated score 85; a calibration request
    for the review is then refused, as it is before the calibration. *)
Example calibration_adds_adjustment :
  getReviewAnalysis 1
    (fst (transact (ApplyCalibration (env := sample_env) 7 [80; 5] [1]) sample_state))
  = Ok ((0, 85, false, true),
        fst (transact (ApplyCalibration (env := sample_env) 7 [80; 5] [1]) sample_state)) /\
  snd (transact (RequestCalibration (env := sample_env) 1 55 8)
         (fst (transact (ApplyCalibration (env := sample_env) 7 [80; 5] [1]) sample_state)))
  = Some AlreadyCalibrated /\
  snd (transact (RequestCalibration (env := sample_env) 1 55 8) sample_state)
  = Some AlreadyCalibrated.
Proof. vm_compute. repeat split; reflexivity. Qed.

(** ** Every call, by its effect *)

Section Effects.

Context `{env : FHEVM}.

Lemma dispatch_effect (c : call) (s s' : State) (u : unit) :
  dispatch c s = Ok (u, s') -> effect_of c s s'.
Proof.
  intros E. destruct c; simpl in E; simpl.
  - unfold submitPerformanceReview in E. unfold_contract.
    destruct (Z.leb_spec (reviewCount s + 1) MAX_UINT256); by simplify_eq.
  - unfold addBiasModel in E. unfold_contract.
    destruct (Z.leb_spec (modelCount s + 1) MAX_UINT256); by simplify_eq.
  - unfold requestBiasAnalysis in E. unfold_contract. by simplify_eq.
  - by apply analyzeBias_inv in E.
  - unfold requestCalibration in E. unfold_contract.
    destruct (FHE_isInitialized _) eqn:Hi; simpl in E; by simplify_eq.
  - by apply applyCalibration_inv in E.
  - unfold requestGroupStats in E. unfold_contract.
    destruct (FHE_isInitialized _) eqn:Hi; simpl in E; by simplify_eq.
  - unfold decryptGroupStats in E. unfold_contract.
    destruct (FHE_signaturesValid _ _ _); simpl in E; [| done].
    destruct (abi_decode_uint32 _) as [x |] eqn:Hx; [| done].
    destruct (is_uint32 x) eqn:Hr; simplify_eq. eauto.
Qed.

Lemma effect_dispatch (c : call) (s s' : State) :
  effect_of c s s' -> dispatch c s = Ok (tt, s').
Proof.
  intros E. destruct c; simpl in E; simpl.
  - destruct E as [Hle ->]. unfold submitPerformanceReview. unfold_contract.
    by destruct (Z.leb_spec (reviewCount s + 1) MAX_UINT256); [| lia].
  - destruct E as [Hle ->]. unfold addBiasModel. unfold_contract.
    by destruct (Z.leb_spec (modelCount s + 1) MAX_UINT256); [| lia].
  - by subst s'.
  - destruct E as (Hid & Hp & p & rg & re & th & rest & Hd & Hsub & ->).
    by apply analyzeBias_ok with (rest := rest).
  - destruct E as [Hi ->]. unfold requestCalibration. unfold_contract.
    by rewrite Hi.
  - destruct E as (Hid & Hp & o & a & rest & Hd & Hsum & ->).
    by apply applyCalibration_ok with (rest := rest).
  - destruct E as [Hi ->]. unfold requestGroupStats. unfold_contract.
    by rewrite Hi.
  - destruct E as (Hp & (x & Hx & Hr) & ->). unfold decryptGroupStats.
    unfold_contract. rewrite Hp. simpl. by rewrite Hx, Hr.
Qed.

(** Induction over the reachable states, by the calls that went through. *)
Lemma reachable_effect_ind (P : State -> Prop) :
  P initial ->
  (forall s c s', reachable s -> P s -> effect_of c s s' -> P s') ->
  forall s, reachable s -> P s.
Proof.
  intros H0 Hstep s Hr. induction Hr as [| s c Hs IH]; [done |].
  unfold transact. destruct (dispatch c s) as [[u s'] |] eqn:E; [| done].
  simpl. eapply Hstep; eauto using dispatch_effect.
Qed.

Lemma transact_effect (c : call) (s : State) :
  snd (transact c s) = None -> effect_of c s (fst (transact c s)).
Proof.
  intros H. apply transact_Ok in H as [u E]. by apply dispatch_effect in E.
Qed.

Lemma transact_cases (c : call) (s : State) :
  (exists e, transact c s = (s, Some e)) \/
  (exists s', transact c s = (s', None) /\ effect_of c s s').
Proof.
  unfold transact. destruct (dispatch c s) as [[u s'] | e] eqn:E.
  - right. exists s'. split; [done |]. by apply dispatch_effect in E.
  - left. by exists e.
Qed.

Lemma transact_reverted (c : call) (s : State) (e : error) :
  snd (transact c s) = Some e -> fst (transact c s) = s.
Proof. unfold transact. by destruct (dispatch c s) as [[u s'] |]. Qed.

End Effects.

(** ** Review creation *)

Section Creation.

Context `{env : FHEVM}.

Lemma submitted_ids_app (l1 l2 : list Event) :
  submitted_ids (l1 ++ l2) = submitted_ids l1 ++ submitted_ids l2.
Proof. unfold submitted_ids. apply flat_map_app. Qed.

Lemma In_submitted_ids (evs : list Event) (id : Z) :
  In id (submitted_ids evs) <-> exists ts, In (ReviewSubmitted id ts) evs.
Proof.
  unfold submitted_ids. rewrite in_flat_map. split.
  - intros (e & Hin & He). destruct e; simpl in He; try done.
    destruct He as [<- | []]. eauto.
  - intros [ts Hin]. exists (ReviewSubmitted id ts). simpl. auto.
Qed.

Lemma analysed_events_ids (id score th : Z) (s : State) :
  submitted_ids (events (analysed id score th s)) = submitted_ids (events s).
Proof.
  unfold analysed. destruct (th <? score); simpl; [| done].
  rewrite submitted_ids_app. simpl. by rewrite app_nil_r.
Qed.

Lemma seqZ_snoc (n : Z) : 0 <= n -> seqZ 1 (n + 1) = seqZ 1 n ++ [n + 1].
Proof.
  intros Hn. rewrite seqZ_app by lia. f_equal.
  rewrite seqZ_cons by lia. rewrite seqZ_nil by lia. f_equal. lia.
Qed.

(** X1: when the counter is below its maximum, [submitPerformanceReview]
    goes through; the new review is stored under the next id with exactly
    the three handles and the timestamp it was given, its analysis result is
    the zero one, one [ReviewSubmitted] event is appended, and every other
    review, analysis result, model and registry entry is as before. *)
Theorem submit_stores_review (s : State) (score rg re : euint32) (ts : Z) :
  reviewCount s + 1 <= MAX_UINT256 ->
  exists s',
    submitPerformanceReview score rg re ts s = Ok (tt, s') /\
    reviewCount s' = reviewCount s + 1 /\
    performanceReviews s' @@ (reviewCount s')
      = mkEncryptedReview (reviewCount s') score rg re (FHE_asEuint32 0) ts /\
    getReviewAnalysis (reviewCount s') s' = Ok ((0, 0, false, false), s') /\
    events s' = events s ++ [ReviewSubmitted (reviewCount s') ts] /\
    (forall j, j ≠ reviewCount s' ->
       performanceReviews s' !! j = performanceReviews s !! j /\
       reviewAnalyses s' !! j = reviewAnalyses s !! j) /\
    biasModels s' = biasModels s /\
    modelCount s' = modelCount s /\
    requestToReviewId s' = requestToReviewId s /\
    decryptionRequests s' = decryptionRequests s.
Proof.
  intros Hle. eexists. split.
  - apply (effect_dispatch (SubmitPerformanceReview score rg re ts)).
    simpl. split; [exact Hle | reflexivity].
  - simpl. rewrite slot_insert_eq. split; [done |]. split; [done |].
    split. { unfold getReviewAnalysis, bind, gets, ret. simpl.
             by rewrite slot_insert_eq. }
    split; [done |]. split; [| done].
    intros j Hj. by rewrite !lookup_insert_ne.
Qed.

(** X2: when the counter has reached 2^256 - 1, [submitPerformanceReview]
    reverts with an arithmetic panic and the state stays as it was: the
    counter does not wrap round to 0. *)
Theorem submit_at_maximum_reverts (s : State) (score rg re : euint32) (ts : Z) :
  MAX_UINT256 <= reviewCount s ->
  transact (SubmitPerformanceReview score rg re ts) s
    = (s, Some (Panic PANIC_ARITHMETIC)).
Proof.
  intros Hmax. apply transact_of_Revert. simpl.
  unfold submitPerformanceReview. unfold_contract.
  by destruct (Z.leb_spec (reviewCount s + 1) MAX_UINT256); [lia |].
Qed.

Lemma reachable_submitted_ids (s : State) :
  reachable s ->
  0 <= reviewCount s /\ submitted_ids (events s) = seqZ 1 (reviewCount s).
Proof.
  intros Hs. pattern s. revert s Hs. apply reachable_effect_ind; [done |].
  intros s c s' Hs [H0 IH] E. destruct c; simpl in E.
  - destruct E as [Hle ->]. simpl. split; [lia |].
    rewrite submitted_ids_app, IH, seqZ_snoc by done. done.
  - destruct E as [Hle ->]. done.
  - subst s'. simpl. split; [done |].
    rewrite submitted_ids_app. simpl. by rewrite app_nil_r.
  - destruct E as (_ & _ & p & rg & re & th & rest & _ & _ & ->).
    by rewrite analysed_events_ids, analysed_reviewCount.
  - destruct E as [_ ->]. done.
  - destruct E as (_ & _ & o & a & rest & _ & _ & ->). simpl. split; [done |].
    rewrite submitted_ids_app. simpl. by rewrite app_nil_r.
  - destruct E as [_ ->]. done.
  - destruct E as (_ & _ & ->). done.
Qed.

(** X3: in every reachable state the ids of the [ReviewSubmitted] events,
    in the order of the log, are 1, 2, ..., [reviewCount]: ids are assigned
    in increasing order, none is skipped and none is assigned twice. *)
Theorem review_ids_consecutive (s : State) :
  reachable s ->
  submitted_ids (events s) = seqZ 1 (reviewCount s) /\
  NoDup (submitted_ids (events s)) /\
  Z.of_nat (length (submitted_ids (events s))) = reviewCount s.
Proof.
  intros Hs. destruct (reachable_submitted_ids s Hs) as [H0 E].
  rewrite E. split; [done |]. split; [apply NoDup_seqZ |].
  rewrite length_seqZ. lia.
Qed.

Lemma reachable_review_stored (s : State) :
  reachable s ->
  forall id, 1 <= id <= reviewCount s ->
    is_Some (performanceReviews s !! id) /\
    is_Some (reviewAnalyses s !! id) /\
    reviewId (performanceReviews s @@ id) = id.
Proof.
  intros Hs. pattern s. revert s Hs. apply reachable_effect_ind.
  - simpl. intros id Hid. lia.
  - intros s c s' Hs IH E id Hid.
    destruct c; simpl in E.
    + destruct E as [Hle ->]. simpl in *.
      destruct (decide (reviewCount s + 1 = id)) as [<- | Hne].
      * rewrite !lookup_insert_eq, slot_insert_eq. eauto.
      * rewrite !lookup_insert_ne, slot_insert_ne by done. apply IH. lia.
    + destruct E as [Hle ->]. by apply IH.
    + subst s'. by apply IH.
    + destruct E as (_ & _ & p & rg & re & th & rest & _ & _ & ->).
      rewrite analysed_reviewCount in Hid. rewrite analysed_reviews.
      destruct (IH id Hid) as (H1 & H2 & H3). split; [done |]. split; [| done].
      unfold analysed. destruct (th <? bias_of p rg re); simpl;
        (destruct (decide (requestToReviewId s @@ requestId = id)) as [-> | Hne];
         [by rewrite lookup_insert_eq | by rewrite lookup_insert_ne]).
    + destruct E as [_ ->]. by apply IH.
    + destruct E as (_ & _ & o & a & rest & _ & _ & ->). simpl in *.
      destruct (IH id Hid) as (H1 & H2 & H3).
      destruct (decide (requestToReviewId s @@ requestId = id)) as [-> | Hne].
      * rewrite !lookup_insert_eq, slot_insert_eq. eauto.
      * rewrite !lookup_insert_ne, slot_insert_ne by done. eauto.
    + destruct E as [_ ->]. by apply IH.
    + destruct E as (_ & _ & ->). by apply IH.
Qed.

(** X4: in every reachable state the created reviews are exactly those with
    an id between 1 and [reviewCount]; each of them has a review record and
    an analysis result stored under its id, and the record carries that id
    in its [reviewId] field. *)
Theorem created_reviews_are_stored (s : State) (id : Z) :
  reachable s ->
  (created s id <-> 1 <= id <= reviewCount s) /\
  (created s id ->
     is_Some (performanceReviews s !! id) /\
     is_Some (reviewAnalyses s !! id) /\
     reviewId (performanceReviews s @@ id) = id).
Proof.
  intros Hs. destruct (reachable_submitted_ids s Hs) as [H0 E].
  assert (created s id <-> 1 <= id <= reviewCount s) as Hiff.
  { unfold created. rewrite <- In_submitted_ids, E, <- list_elem_of_In, elem_of_seqZ.
    lia. }
  split; [done |]. intros Hc. apply reachable_review_stored; [done |].
  by apply Hiff.
Qed.

End Creation.

(** ** What later calls leave of a review, and of a model *)

Section Persistence.

Context `{env : FHEVM}.

Lemma same_submission_refl (r : EncryptedReview) : same_submission r r.
Proof. by repeat split. Qed.

Lemma same_submission_trans (r1 r2 r3 : EncryptedReview) :
  same_submission r1 r2 -> same_submission r2 r3 -> same_submission r1 r3.
Proof.
  intros (A1 & A2 & A3 & A4 & A5) (B1 & B2 & B3 & B4 & B5).
  repeat split; congruence.
Qed.

Lemma transact_counts (c : call) (s : State) :
  reviewCount s <= reviewCount (fst (transact c s)) <= reviewCount s + 1 /\
  modelCount s <= modelCount (fst (transact c s)) <= modelCount s + 1.
Proof.
  destruct (transact_cases c s) as [[e ->] | (s' & -> & Hr)]; simpl fst.
  { lia. }
  destruct c; simpl in Hr.
  - destruct Hr as [_ ->]. simpl. lia.
  - destruct Hr as [_ ->]. simpl. lia.
  - rewrite Hr. simpl. lia.
  - destruct Hr as (_ & _ & p & rg & re & th & rest & _ & _ & ->).
    rewrite analysed_reviewCount. unfold analysed.
    destruct (th <? bias_of p rg re); simpl; lia.
  - destruct Hr as [_ ->]. simpl. lia.
  - destruct Hr as (_ & _ & o & a & rest & _ & _ & ->). simpl. lia.
  - destruct Hr as [_ ->]. simpl. lia.
  - destruct Hr as (_ & _ & ->). lia.
Qed.

Lemma transact_same_submission (c : call) (s : State) (id : Z) :
  id <= reviewCount s ->
  same_submission (performanceReviews (fst (transact c s)) @@ id)
                  (performanceReviews s @@ id).
Proof.
  intros Hid.
  destruct (transact_cases c s) as [[e ->] | (s' & -> & Hr)]; simpl fst.
  { apply same_submission_refl. }
  destruct c; simpl in Hr.
  - destruct Hr as [_ ->]. simpl. rewrite slot_insert_ne by lia.
    apply same_submission_refl.
  - destruct Hr as [_ ->]. apply same_submission_refl.
  - rewrite Hr. apply same_submission_refl.
  - destruct Hr as (_ & _ & p & rg & re & th & rest & _ & _ & ->).
    rewrite analysed_reviews. apply same_submission_refl.
  - destruct Hr as [_ ->]. apply same_submission_refl.
  - destruct Hr as (_ & _ & o & a & rest & _ & _ & ->). simpl.
    destruct (decide (requestToReviewId s @@ requestId = id)) as [-> | Hne].
    + rewrite slot_insert_eq. by repeat split.
    + rewrite slot_insert_ne by done. apply same_submission_refl.
  - destruct Hr as [_ ->]. apply same_submission_refl.
  - destruct Hr as (_ & _ & ->). apply same_submission_refl.
Qed.

Lemma run_same_submission (cs : list call) (s : State) (id : Z) :
  id <= reviewCount s ->
  same_submission (performanceReviews (run cs s) @@ id) (performanceReviews s @@ id).
Proof.
  revert s. induction cs as [| c cs IH]; intros s Hid.
  - apply same_submission_refl.
  - simpl. eapply same_submission_trans.
    + apply IH. pose proof (transact_counts c s). lia.
    + by apply transact_same_submission.
Qed.

(** X5: a review that was submitted keeps its id, its three ciphertext
    handles and its timestamp through every later sequence of calls; only
    its calibration field can change. *)
Theorem submitted_review_persists (s s' : State) (score rg re : euint32) (ts : Z)
    (cs : list call) :
  submitPerformanceReview score rg re ts s = Ok (tt, s') ->
  reviewId (performanceReviews (run cs s') @@ (reviewCount s')) = reviewCount s' /\
  encryptedPerformanceScore (performanceReviews (run cs s') @@ (reviewCount s')) = score /\
  encryptedReviewerGroup (performanceReviews (run cs s') @@ (reviewCount s')) = rg /\
  encryptedRevieweeGroup (performanceReviews (run cs s') @@ (reviewCount s')) = re /\
  timestamp (performanceReviews (run cs s') @@ (reviewCount s')) = ts.
Proof.
  intros E.
  apply (dispatch_effect (SubmitPerformanceReview score rg re ts)) in E.
  destruct E as [Hle ->].
  destruct (run_same_submission cs
              (set_events (events s ++ [ReviewSubmitted (reviewCount s + 1) ts])
                 (set_reviewAnalyses
                    (<[reviewCount s + 1 := mkDecryptedAnalysis 0 0 false false]>
                       (reviewAnalyses s))
                    (set_performanceReviews
                       (<[reviewCount s + 1 :=
                            mkEncryptedReview (reviewCount s + 1) score rg re
                              (FHE_asEuint32 0) ts]> (performanceReviews s))
                       (set_reviewCount (reviewCount s + 1) s))))
              (reviewCount s + 1)) as (H1 & H2 & H3 & H4 & H5).
  { simpl. lia. }
  simpl in *. rewrite slot_insert_eq in H1, H2, H3, H4, H5. simpl in *.
  by rewrite H1, H2, H3, H4, H5.
Qed.

Lemma transact_model_kept (c : call) (s : State) (id : Z) :
  id <= modelCount s ->
  biasModels (fst (transact c s)) !! id = biasModels s !! id.
Proof.
  intros Hid.
  destruct (transact_cases c s) as [[e ->] | (s' & -> & Hr)]; simpl fst.
  { done. }
  destruct c; simpl in Hr.
  - by destruct Hr as [_ ->].
  - destruct Hr as [_ ->]. simpl. rewrite lookup_insert_ne; [done | lia].
  - by rewrite Hr.
  - destruct Hr as (_ & _ & p & rg & re & th & rest & _ & _ & ->).
    unfold analysed. by destruct (th <? bias_of p rg re).
  - by destruct Hr as [_ ->].
  - by destruct Hr as (_ & _ & o & a & rest & _ & _ & ->).
  - by destruct Hr as [_ ->].
  - by destruct Hr as (_ & _ & ->).
Qed.

Lemma run_model_kept (cs : list call) (s : State) (id : Z) :
  id <= modelCount s ->
  biasModels (run cs s) !! id = biasModels s !! id.
Proof.
  revert s. induction cs as [| c cs IH]; intros s Hid; [done |].
  simpl. rewrite IH.
  - by apply transact_model_kept.
  - pose proof (transact_counts c s). lia.
Qed.

(** X6: when the model counter is below its maximum, [addBiasModel] stores
    the two handles under the next id and changes nothing else; and the
    stored model is the same after every later sequence of calls: the
    contract has no way to alter or remove a model. *)
Theorem added_model_persists (s : State) (th range : euint32) (cs : list call) :
  modelCount s + 1 <= MAX_UINT256 ->
  exists s',
    addBiasModel th range s = Ok (tt, s') /\
    modelCount s' = modelCount s + 1 /\
    reviewCount s' = reviewCount s /\
    performanceReviews s' = performanceReviews s /\
    reviewAnalyses s' = reviewAnalyses s /\
    requestToReviewId s' = requestToReviewId s /\
    decryptionRequests s' = decryptionRequests s /\
    events s' = events s /\
    (forall j, j ≠ modelCount s' -> biasModels s' !! j = biasModels s !! j) /\
    biasModels (run cs s') !! (modelCount s')
      = Some (mkEncryptedBiasModel (modelCount s') th range).
Proof.
  intros Hle. eexists. split.
  - apply (effect_dispatch (AddBiasModel th range)).
    simpl. split; [exact Hle | reflexivity].
  - repeat split.
    + intros j Hj. simpl in *. by rewrite lookup_insert_ne.
    + rewrite run_model_kept by (simpl; lia).
      simpl. by rewrite lookup_insert_eq.
Qed.

End Persistence.

(** ** Requests for decryption *)

Section Requests.

Context `{env : FHEVM}.

(** X8: a request of any of the three kinds that goes through changes the
    registry at the request id the oracle returned, where it writes the
    subject id, and nowhere else; the oracle has received exactly one more
    request, with that request id; every review, model and analysis result
    and both counters are as they were. *)
Theorem request_changes_one_entry (c : call) (s s' : State) (id o : Z) :
  subject_of c = Some (id, o) ->
  dispatch c s = Ok (tt, s') ->
  requestToReviewId s' = <[o := id]> (requestToReviewId s) /\
  requestToReviewId s' @@ o = id /\
  (forall t, t ≠ o -> requestToReviewId s' !! t = requestToReviewId s !! t) /\
  (exists r, decryptionRequests s' = decryptionRequests s ++ [r] /\ dr_id r = o) /\
  performanceReviews s' = performanceReviews s /\
  biasModels s' = biasModels s /\
  reviewAnalyses s' = reviewAnalyses s /\
  reviewCount s' = reviewCount s /\
  modelCount s' = modelCount s.
Proof.
  intros Hc E. apply dispatch_effect in E.
  destruct c; simpl in Hc; simplify_eq; simpl in E.
  - subst s'. simpl. rewrite slot_insert_eq. repeat split; eauto.
    intros t Ht. by rewrite lookup_insert_ne.
  - destruct E as [_ ->]. simpl. rewrite slot_insert_eq. repeat split; eauto.
    intros t Ht. by rewrite lookup_insert_ne.
  - destruct E as [_ ->]. simpl. rewrite slot_insert_eq. repeat split; eauto.
    intros t Ht. by rewrite lookup_insert_ne.
Qed.

Lemma reachable_no_group_stats (s : State) :
  reachable s -> encryptedGroupStats s = ∅ /\ groupList s = [].
Proof.
  intros Hs. pattern s. revert s Hs. apply reachable_effect_ind; [done |].
  intros s c s' Hs IH E. destruct c; simpl in E.
  - by destruct E as [_ ->].
  - by destruct E as [_ ->].
  - by subst s'.
  - destruct E as (_ & _ & p & rg & re & th & rest & _ & _ & ->).
    unfold analysed. by destruct (th <? bias_of p rg re).
  - by destruct E as [_ ->].
  - by destruct E as (_ & _ & o & a & rest & _ & _ & ->).
  - by destruct E as [_ ->].
  - by destruct E as (_ & _ & ->).
Qed.

Lemma reachable_request_callbacks (s : State) :
  reachable s ->
  forall r, In r (decryptionRequests s) -> dr_callback r ≠ decryptGroupStats_selector.
Proof.
  intros Hs. pattern s. revert s Hs. apply reachable_effect_ind.
  { intros r []. }
  intros s c s' Hs IH E. destruct c; simpl in E.
  - by destruct E as [_ ->].
  - by destruct E as [_ ->].
  - subst s'. simpl. intros r Hin. rewrite in_app_iff in Hin.
    destruct Hin as [Hin | [<- | []]]; [by apply IH | done].
  - destruct E as (_ & _ & p & rg & re & th & rest & _ & _ & ->).
    unfold analysed. by destruct (th <? bias_of p rg re).
  - destruct E as [_ ->]. simpl. intros r Hin. rewrite in_app_iff in Hin.
    destruct Hin as [Hin | [<- | []]]; [by apply IH | done].
  - by destruct E as (_ & _ & o & a & rest & _ & _ & ->).
  - destruct E as [Hi _]. destruct (reachable_no_group_stats s Hs) as [Hg _].
    rewrite Hg in Hi. done.
  - by destruct E as (_ & _ & ->).
Qed.

(** X9: the contract has no function that stores group statistics, so in
    every reachable state [requestGroupStats] reverts with "Group not found"
    for every group id and changes nothing, and no request naming the
    [decryptGroupStats] callback has ever been sent to the oracle. *)
Theorem requestGroupStats_never_accepted (s : State) (g o : Z) :
  reachable s ->
  transact (RequestGroupStats g o) s = (s, Some Group_not_found) /\
  forall r, In r (decryptionRequests s) -> dr_callback r ≠ decryptGroupStats_selector.
Proof.
  intros Hs. split; [| by apply reachable_request_callbacks].
  apply transact_of_Revert. simpl.
  destruct (reachable_no_group_stats s Hs) as [Hg _].
  unfold requestGroupStats. unfold_contract. by rewrite Hg.
Qed.

End Requests.

(** ** More on the callbacks *)

Section MoreCallbacks.

Context `{env : FHEVM}.

(** X12: a bias-analysis callback that goes through stores as [isBiased]
    whether the stored bias score exceeds the threshold, the fourth decoded
    word; it appends one [BiasDetected] event carrying the review id and
    that score exactly when the review is flagged, and no event otherwise.
    When the two groups are equal the review is never flagged, whatever the
    threshold. *)
Theorem analyzeBias_flags_above_threshold (s s' : State) (t : Z)
    (cleartexts proof : bytes) (p rg re th : Z) (rest : list Z) :
  decoded cleartexts = Some (p :: rg :: re :: th :: rest) ->
  analyzeBias t cleartexts proof s = Ok (tt, s') ->
  isBiased (reviewAnalyses s' @@ (requestToReviewId s @@ t))
    = (th <? biasScore (reviewAnalyses s' @@ (requestToReviewId s @@ t))) /\
  events s' =
    events s ++
      (if isBiased (reviewAnalyses s' @@ (requestToReviewId s @@ t))
       then [BiasDetected (requestToReviewId s @@ t)
               (biasScore (reviewAnalyses s' @@ (requestToReviewId s @@ t)))]
       else []) /\
  (rg = re -> isBiased (reviewAnalyses s' @@ (requestToReviewId s @@ t)) = false).
Proof.
  intros Hd E.
  apply analyzeBias_inv in E
    as (Hid & Hp & p' & rg' & re' & th' & rest' & Hd' & Hsub & ->).
  rewrite Hd in Hd'. simplify_eq.
  rewrite analysed_slot. simpl. split; [done |]. split.
  - unfold analysed. destruct (th' <? bias_of p' rg' re'); simpl; [done |].
    by rewrite app_nil_r.
  - intros ->. unfold bias_of. rewrite Z.eqb_refl.
    pose proof (decoded_uint32 _ _ th' Hd ltac:(simpl; auto)).
    apply Z.ltb_ge. lia.
Qed.

(** X13: with a registered request id and a proof that verifies, a
    bias-analysis callback whose payload does not decode reverts with a
    decoding error, and one whose payload decodes to fewer than four words
    reverts with an array-index panic; in both cases nothing is stored.
    Words beyond the fourth are ignored. *)
Theorem analyzeBias_malformed_payload (s : State) (t : Z) (cleartexts proof : bytes) :
  requestToReviewId s @@ t ≠ 0 ->
  FHE_signaturesValid t cleartexts proof = true ->
  (decoded cleartexts = None ->
     transact (AnalyzeBias t cleartexts proof) s = (s, Some Abi_decode_failed)) /\
  (forall l, decoded cleartexts = Some l -> (length l < 4)%nat ->
     transact (AnalyzeBias t cleartexts proof) s = (s, Some (Panic PANIC_INDEX))) /\
  (forall p rg re th rest rest' cleartexts',
     decoded cleartexts = Some (p :: rg :: re :: th :: rest) ->
     decoded cleartexts' = Some (p :: rg :: re :: th :: rest') ->
     FHE_signaturesValid t cleartexts' proof = true ->
     analyzeBias t cleartexts proof s = analyzeBias t cleartexts' proof s).
Proof.
  intros Hid Hp. split; [| split].
  - intros Hd. apply transact_of_Revert. simpl.
    unfold analyzeBias. unfold_contract.
    destruct (Z.eqb_spec (requestToReviewId s @@ t) 0); [done |].
    simpl. by rewrite Hp, Hd.
  - intros l Hd Hlen. apply transact_of_Revert. simpl.
    unfold analyzeBias. unfold_contract.
    destruct (Z.eqb_spec (requestToReviewId s @@ t) 0); [done |].
    simpl. rewrite Hp, Hd.
    destruct l as [| p [| rg [| re [| th rest]]]]; simpl in *; try done; lia.
  - intros p rg re th rest rest' ct' Hd Hd' Hp'.
    unfold analyzeBias. unfold_contract.
    destruct (Z.eqb_spec (requestToReviewId s @@ t) 0); [done |].
    simpl. by rewrite Hp, Hp', Hd, Hd'.
Qed.

(** X14: with a registered request id and a proof that verifies, a
    calibration callback whose payload does not decode reverts with a
    decoding error, and one whose payload decodes to fewer than two words
    reverts with an array-index panic; in both cases nothing is stored. *)
Theorem applyCalibration_malformed_payload (s : State) (t : Z)
    (cleartexts proof : bytes) :
  requestToReviewId s @@ t ≠ 0 ->
  FHE_signaturesValid t cleartexts proof = true ->
  (decoded cleartexts = None ->
     transact (ApplyCalibration t cleartexts proof) s = (s, Some Abi_decode_failed)) /\
  (forall l, decoded cleartexts = Some l -> (length l < 2)%nat ->
     transact (ApplyCalibration t cleartexts proof) s = (s, Some (Panic PANIC_INDEX))).
Proof.
  intros Hid Hp. split.
  - intros Hd. apply transact_of_Revert. simpl.
    unfold applyCalibration. unfold_contract.
    destruct (Z.eqb_spec (requestToReviewId s @@ t) 0); [done |].
    simpl. by rewrite Hp, Hd.
  - intros l Hd Hlen. apply transact_of_Revert. simpl.
    unfold applyCalibration. unfold_contract.
    destruct (Z.eqb_spec (requestToReviewId s @@ t) 0); [done |].
    simpl. rewrite Hp, Hd.
    destruct l as [| o [| a rest]]; simpl in *; try done; lia.
Qed.

(** X15: a calibration callback that goes through leaves [biasScore] and
    [isBiased] of the review's analysis result as they were; in the review
    record it changes the calibration field only, to the encryption of the
    stored calibratedScore; it leaves every other review and analysis
    result, the models, the registry and the counters as they were, and
    appends exactly one [ReviewCalibrated] event.  It does so whether or not
    the review was calibrated before. *)
Theorem applyCalibration_frame (s s' : State) (t : Z) (cleartexts proof : bytes) :
  applyCalibration t cleartexts proof s = Ok (tt, s') ->
  biasScore (reviewAnalyses s' @@ (requestToReviewId s @@ t))
    = biasScore (reviewAnalyses s @@ (requestToReviewId s @@ t)) /\
  isBiased (reviewAnalyses s' @@ (requestToReviewId s @@ t))
    = isBiased (reviewAnalyses s @@ (requestToReviewId s @@ t)) /\
  same_submission (performanceReviews s' @@ (requestToReviewId s @@ t))
                  (performanceReviews s @@ (requestToReviewId s @@ t)) /\
  encryptedCalibrationScore (performanceReviews s' @@ (requestToReviewId s @@ t))
    = FHE_asEuint32 (calibratedScore (reviewAnalyses s' @@ (requestToReviewId s @@ t))) /\
  (forall j, j ≠ requestToReviewId s @@ t ->
     performanceReviews s' !! j = performanceReviews s !! j /\
     reviewAnalyses s' !! j = reviewAnalyses s !! j) /\
  biasModels s' = biasModels s /\
  requestToReviewId s' = requestToReviewId s /\
  reviewCount s' = reviewCount s /\
  modelCount s' = modelCount s /\
  decryptionRequests s' = decryptionRequests s /\
  events s' = events s ++ [ReviewCalibrated (requestToReviewId s @@ t)].
Proof.
  intros E.
  apply applyCalibration_inv in E as (Hid & Hp & o & a & rest & Hd & Hsum & ->).
  simpl. rewrite !slot_insert_eq. simpl.
  repeat split. all: by rewrite lookup_insert_ne.
Qed.

(** X16: in every reachable state, for every id: the stored bias score and
    calibrated score are within uint32; a review flagged as biased has a
    bias score of at least 1; a review not marked calibrated has the
    calibrated score 0; and for a review marked calibrated the calibration
    field of the review record is the encryption of the stored calibrated
    score. *)
Theorem stored_analysis_consistent (s : State) (id : Z) :
  reachable s ->
  0 <= biasScore (reviewAnalyses s @@ id) <= MAX_UINT32 /\
  0 <= calibratedScore (reviewAnalyses s @@ id) <= MAX_UINT32 /\
  (isBiased (reviewAnalyses s @@ id) = true -> 1 <= biasScore (reviewAnalyses s @@ id)) /\
  (isCalibrated (reviewAnalyses s @@ id) = false ->
     calibratedScore (reviewAnalyses s @@ id) = 0) /\
  (isCalibrated (reviewAnalyses s @@ id) = true ->
     encryptedCalibrationScore (performanceReviews s @@ id)
       = FHE_asEuint32 (calibratedScore (reviewAnalyses s @@ id))).
Proof.
  intros Hs. change (analysis_consistent s id). revert id.
  pattern s. revert s Hs. apply reachable_effect_ind.
  { intros id. unfold analysis_consistent, MAX_UINT32. simpl.
    unfold slot. rewrite lookup_empty. simpl. repeat split; try lia; done. }
  intros s c s' Hs IH E id. specialize (IH id).
  destruct IH as (B1 & B2 & B3 & B4 & B5).
  unfold analysis_consistent. destruct c; simpl in E.
  - destruct E as [_ ->]. simpl.
    destruct (decide (reviewCount s + 1 = id)) as [<- | Hne].
    + rewrite !slot_insert_eq. simpl. unfold MAX_UINT32. repeat split; try lia; done.
    + by rewrite !slot_insert_ne.
  - by destruct E as [_ ->].
  - by subst s'.
  - destruct E as (_ & _ & p & rg & re & th & rest & Hd & Hsub & ->).
    rewrite analysed_reviews.
    destruct (decide (requestToReviewId s @@ requestId = id)) as [<- | Hne].
    + rewrite analysed_slot. simpl.
      pose proof (decoded_uint32 _ _ p Hd ltac:(simpl; auto)).
      pose proof (decoded_uint32 _ _ th Hd ltac:(simpl; auto)).
      assert (0 <= bias_of p rg re <= MAX_UINT32) as Hb.
      { unfold bias_of, calculateGroupAverage in *.
        destruct (Z.eqb_spec rg re); unfold MAX_UINT32 in *; lia. }
      repeat split; try lia; try done.
    + assert (reviewAnalyses
                (analysed (requestToReviewId s @@ requestId) (bias_of p rg re) th s)
                @@ id = reviewAnalyses s @@ id) as ->; [| done].
      unfold slot. by rewrite analysed_other.
  - by destruct E as [_ ->].
  - destruct E as (_ & _ & o & a & rest & Hd & Hsum & ->). simpl.
    destruct (decide (requestToReviewId s @@ requestId = id)) as [<- | Hne].
    + rewrite !slot_insert_eq. simpl.
      pose proof (decoded_uint32 _ _ o Hd ltac:(simpl; auto)).
      pose proof (decoded_uint32 _ _ a Hd ltac:(simpl; auto)).
      repeat split; try lia; try done.
    + by rewrite !slot_insert_ne.
  - by destruct E as [_ ->].
  - by destruct E as (_ & _ & ->).
Qed.

Lemma reachable_slot_zero (s : State) :
  reachable s ->
  performanceReviews s !! 0 = None /\ reviewAnalyses s !! 0 = None.
Proof.
  intros Hs. pattern s. revert s Hs. apply reachable_effect_ind; [done |].
  intros s c s' Hs [IH1 IH2] E.
  destruct (reachable_ids_in_range s Hs) as [H0 _].
  destruct c; simpl in E.
  - destruct E as [_ ->]. simpl. by rewrite !lookup_insert_ne by lia.
  - by destruct E as [_ ->].
  - by subst s'.
  - destruct E as (Hid & _ & p & rg & re & th & rest & _ & _ & ->).
    rewrite analysed_reviews, analysed_other; done.
  - by destruct E as [_ ->].
  - destruct E as (Hid & _ & o & a & rest & _ & _ & ->). simpl.
    by rewrite !lookup_insert_ne.
  - by destruct E as [_ ->].
  - by destruct E as (_ & _ & ->).
Qed.

(** X17: in every reachable state nothing is stored under the id 0, neither
    a review record nor an analysis result: creation starts at 1 and both
    callbacks refuse the subject 0.  The query for id 0 therefore returns
    (0, 0, false, false). *)
Theorem id_zero_never_written (s : State) :
  reachable s ->
  performanceReviews s !! 0 = None /\
  reviewAnalyses s !! 0 = None /\
  getReviewAnalysis 0 s = Ok ((0, 0, false, false), s).
Proof.
  intros Hs. destruct (reachable_slot_zero s Hs) as [H1 H2].
  split; [done |]. split; [done |]. by apply getReviewAnalysis_empty_slot.
Qed.

Ltac none_appended :=
  exists []; split; [by rewrite app_nil_r | simpl; lia].
Ltac one_appended :=
  eexists [_]; split; [reflexivity | simpl; lia].

(** X18: a transaction moves each of the two counters up by at most one and
    never down; it appends at most one of the events the contract declares
    ([ReviewSubmitted], [AnalysisRequested], [BiasDetected],
    [ReviewCalibrated]) and sends at most one request to the oracle, leaving
    the earlier ones in place. *)
Theorem transaction_appends (c : call) (s : State) :
  reviewCount s <= reviewCount (fst (transact c s)) <= reviewCount s + 1 /\
  modelCount s <= modelCount (fst (transact c s)) <= modelCount s + 1 /\
  (exists l, events (fst (transact c s)) = events s ++ l /\ (length l <= 1)%nat) /\
  (exists l, decryptionRequests (fst (transact c s)) = decryptionRequests s ++ l /\
             (length l <= 1)%nat).
Proof.
  destruct (transact_counts c s) as [H1 H2]. split; [done |]. split; [done |].
  destruct (transact_cases c s) as [[e ->] | (s' & -> & Hr)]; simpl fst.
  { split; none_appended. }
  destruct c; simpl in Hr.
  - destruct Hr as [_ ->]. simpl. split; [one_appended | none_appended].
  - destruct Hr as [_ ->]. simpl. split; none_appended.
  - subst s'. simpl. split; one_appended.
  - destruct Hr as (_ & _ & p & rg & re & th & rest & _ & _ & ->).
    unfold analysed. destruct (th <? bias_of p rg re); simpl.
    + split; [one_appended | none_appended].
    + split; none_appended.
  - destruct Hr as [_ ->]. simpl. split; [none_appended | one_appended].
  - destruct Hr as (_ & _ & o & a & rest & _ & _ & ->). simpl.
    split; [one_appended | none_appended].
  - destruct Hr as [_ ->]. simpl. split; [none_appended | one_appended].
  - destruct Hr as (_ & _ & ->). split; none_appended.
Qed.

(** X19: the analysis of a created review, from request to query.  In a
    reachable state, for a created review, when [requestBiasAnalysis] has
    gone through, the [analyzeBias] callback with the request id, a proof
    that verifies and a payload whose subtraction does not underflow goes
    through, and [getReviewAnalysis] then returns the computed bias score
    and flag, next to the calibrated score and flag the review had. *)
Theorem analysis_reaches_query (s s1 : State) (id m o : Z) (cleartexts proof : bytes)
    (p rg re th : Z) (rest : list Z) :
  reachable s ->
  created s id ->
  requestBiasAnalysis id m o s = Ok (tt, s1) ->
  FHE_signaturesValid o cleartexts proof = true ->
  decoded cleartexts = Some (p :: rg :: re :: th :: rest) ->
  rg = re \/ calculateGroupAverage rg <= p ->
  exists s2,
    analyzeBias o cleartexts proof s1 = Ok (tt, s2) /\
    getReviewAnalysis id s2 =
      Ok ((bias_of p rg re, calibratedScore (reviewAnalyses s @@ id),
           th <? bias_of p rg re, isCalibrated (reviewAnalyses s @@ id)), s2).
Proof.
  intros Hs Hc E1 Hp Hd Hsub.
  destruct (reachable_ids_in_range s Hs) as [_ Hr].
  destruct Hc as [ts Hin]. specialize (Hr id ts Hin).
  apply (dispatch_effect (RequestBiasAnalysis id m o)) in E1. simpl in E1.
  assert (requestToReviewId s1 @@ o = id /\ reviewAnalyses s1 = reviewAnalyses s)
    as [Hslot Han].
  { subst s1. simpl. by rewrite slot_insert_eq. }
  exists (analysed id (bias_of p rg re) th s1). split.
  - rewrite <- Hslot.
    apply analyzeBias_ok with (rest := rest); [rewrite Hslot; lia | done..].
  - unfold getReviewAnalysis, bind, gets, ret.
    rewrite analysed_slot, Han. reflexivity.
Qed.

End MoreCallbacks.

(** ** Department statistics *)

Section DepartmentStats.

Context `{env : FHEVM} `{arith : FHE_arith}.

(** What the handles stand for: [decrypt] gives the cleartext of a handle;
    trivial encryption is inverted by it, [FHE.add] adds modulo 2^32 and
    [FHE.div] divides when the divisor is not zero. *)
Variable decrypt : euint32 -> Z.
Hypothesis decrypt_asEuint32 :
  forall v, is_uint32 v = true -> decrypt (FHE_asEuint32 v) = v.
Hypothesis decrypt_add :
  forall a b, decrypt (FHE_add a b) = (decrypt a + decrypt b) mod 2 ^ 32.
Hypothesis decrypt_div :
  forall a b, decrypt b ≠ 0 -> decrypt (FHE_div a b) = decrypt a / decrypt b.

Lemma decrypt_fold_add (scores : list euint32) (acc : euint32) :
  0 <= decrypt acc < 2 ^ 32 ->
  decrypt (fold_left FHE_add scores acc)
    = (decrypt acc + sumZ (map decrypt scores)) mod 2 ^ 32.
Proof.
  revert acc. induction scores as [| x xs IH]; intros acc Hacc; simpl.
  - rewrite Z.add_0_r, Z.mod_small; done.
  - rewrite IH.
    + rewrite decrypt_add, Z.add_mod_idemp_l by lia. f_equal. lia.
    + rewrite decrypt_add. apply Z.mod_pos_bound. lia.
Qed.

(** X20: [calculateDepartmentStats] returns a handle of the sum of the
    scores, taken modulo 2^32, divided by the number of scores taken as a
    uint32, when that number is not zero: a sum that passes 2^32 wraps
    before the division, so the result is then not the mean.  (Read over an
    FHE library whose addition wraps at 32 bits.) *)
Theorem department_stats_wrapped_mean (scores : list euint32) :
  to_uint32 (Z.of_nat (length scores)) ≠ 0 ->
  decrypt (calculateDepartmentStats scores)
    = (sumZ (map decrypt scores) mod 2 ^ 32) / to_uint32 (Z.of_nat (length scores)).
Proof.
  intros Hn. unfold calculateDepartmentStats.
  assert (is_uint32 (to_uint32 (Z.of_nat (length scores))) = true) as Hr.
  { apply is_uint32_spec. unfold to_uint32, MAX_UINT32.
    pose proof (Z.mod_pos_bound (Z.of_nat (length scores)) (2 ^ 32)). lia. }
  rewrite decrypt_div; rewrite (decrypt_asEuint32 _ Hr); [| done].
  rewrite decrypt_fold_add.
  - rewrite (decrypt_asEuint32 0) by done. done.
  - rewrite (decrypt_asEuint32 0) by done. lia.
Qed.

End DepartmentStats.

(** ** The added properties on the sample state *)

Lemma sample_state_reachable : reachable (env := sample_env) sample_state.
Proof. exact (reachable_run (env := sample_env) sample_calls initial reachable_initial). Qed.

Lemma submit_stores_review_witness :
  reviewCount sample_state + 1 <= MAX_UINT256 /\
  exists s',
    submitPerformanceReview (env := sample_env) 201 202 203 2000 sample_state = Ok (tt, s') /\
    reviewCount s' = 2 /\
    performanceReviews s' @@ 2 = mkEncryptedReview 2 201 202 203 1 2000.
Proof.
  assert (reviewCount sample_state + 1 <= MAX_UINT256) as H by (vm_compute; discriminate).
  split; [exact H |].
  destruct (submit_stores_review (env := sample_env) sample_state 201 202 203 2000 H)
    as (s' & E & Hc & Hr & _).
  exists s'. split; [exact E |].
  assert (reviewCount s' = 2) as Hc2 by (rewrite Hc; reflexivity).
  split; [exact Hc2 |]. rewrite Hc2 in Hr. exact Hr.
Defined.

Lemma submit_at_maximum_reverts_witness :
  MAX_UINT256 <= reviewCount (set_reviewCount MAX_UINT256 initial) /\
  transact (SubmitPerformanceReview (env := sample_env) 201 202 203 2000)
    (set_reviewCount MAX_UINT256 initial)
    = (set_reviewCount MAX_UINT256 initial, Some (Panic PANIC_ARITHMETIC)).
Proof.
  assert (MAX_UINT256 <= reviewCount (set_reviewCount MAX_UINT256 initial)) as H
    by (simpl; lia).
  split; [exact H |].
  exact (submit_at_maximum_reverts (env := sample_env) _ 201 202 203 2000 H).
Defined.

Lemma review_ids_consecutive_witness :
  reachable (env := sample_env) sample_state /\
  submitted_ids (events sample_state) = seqZ 1 (reviewCount sample_state).
Proof.
  split; [exact sample_state_reachable |].
  exact (proj1 (review_ids_consecutive (env := sample_env) sample_state
                  sample_state_reachable)).
Defined.

Lemma created_reviews_are_stored_witness :
  reachable (env := sample_env) sample_state /\
  (created sample_state 1 <-> 1 <= 1 <= reviewCount sample_state).
Proof.
  split; [exact sample_state_reachable |].
  exact (proj1 (created_reviews_are_stored (env := sample_env) sample_state 1
                  sample_state_reachable)).
Defined.

Lemma submitted_review_persists_witness :
  submitPerformanceReview (env := sample_env) 101 102 103 1000 initial
    = Ok (tt, run [SubmitPerformanceReview (env := sample_env) 101 102 103 1000] initial) /\
  encryptedPerformanceScore
    (performanceReviews
       (run [AddBiasModel (env := sample_env) 104 105; RequestBiasAnalysis 1 1 7;
             ApplyCalibration (env := sample_env) 7 [80; 5] [1]]
          (run [SubmitPerformanceReview (env := sample_env) 101 102 103 1000] initial))
     @@ reviewCount (run [SubmitPerformanceReview (env := sample_env) 101 102 103 1000]
                       initial))
    = 101.
Proof.
  assert (submitPerformanceReview (env := sample_env) 101 102 103 1000 initial
          = Ok (tt, run [SubmitPerformanceReview (env := sample_env) 101 102 103 1000]
                      initial)) as H by (vm_compute; reflexivity).
  split; [exact H |].
  exact (proj1 (proj2 (submitted_review_persists (env := sample_env) initial _
                         101 102 103 1000
                         [AddBiasModel (env := sample_env) 104 105;
                          RequestBiasAnalysis 1 1 7;
             ApplyCalibration (env := sample_env) 7 [80; 5] [1]]
                         H))).
Defined.

Lemma added_model_persists_witness :
  modelCount sample_state + 1 <= MAX_UINT256 /\
  exists s',
    addBiasModel 204 205 sample_state = Ok (tt, s') /\
    biasModels (run [AnalyzeBias (env := sample_env) 7 [90; 2; 1; 10] [1]] s')
      !! (modelCount s')
      = Some (mkEncryptedBiasModel (modelCount s') 204 205).
Proof.
  assert (modelCount sample_state + 1 <= MAX_UINT256) as H by (vm_compute; discriminate).
  split; [exact H |].
  destruct (added_model_persists (env := sample_env) sample_state 204 205
              [AnalyzeBias (env := sample_env) 7 [90; 2; 1; 10] [1]] H)
    as (s' & E & R).
  exists s'. split; [exact E |].
  exact (proj2 (proj2 (proj2 (proj2 (proj2 (proj2 (proj2 (proj2 R)))))))).
Defined.

Lemma request_changes_one_entry_witness :
  subject_of (RequestBiasAnalysis (env := sample_env) 1 1 9) = Some (1, 9) /\
  dispatch (RequestBiasAnalysis (env := sample_env) 1 1 9) sample_state
    = Ok (tt, run [RequestBiasAnalysis (env := sample_env) 1 1 9] sample_state) /\
  requestToReviewId (run [RequestBiasAnalysis (env := sample_env) 1 1 9] sample_state) @@ 9
    = 1 /\
  requestToReviewId (run [RequestBiasAnalysis (env := sample_env) 1 1 9] sample_state) !! 7
    = requestToReviewId sample_state !! 7.
Proof.
  assert (subject_of (RequestBiasAnalysis (env := sample_env) 1 1 9) = Some (1, 9)) as H1
    by reflexivity.
  assert (dispatch (RequestBiasAnalysis (env := sample_env) 1 1 9) sample_state
          = Ok (tt, run [RequestBiasAnalysis (env := sample_env) 1 1 9] sample_state))
    as H2 by (vm_compute; reflexivity).
  split; [exact H1 |]. split; [exact H2 |].
  destruct (request_changes_one_entry (env := sample_env) _ sample_state _
              1 9 H1 H2) as (_ & R1 & R2 & _).
  split; [exact R1 |]. apply R2. discriminate.
Defined.

Lemma requestGroupStats_never_accepted_witness :
  reachable (env := sample_env) sample_state /\
  transact (RequestGroupStats (env := sample_env) 1 8) sample_state
    = (sample_state, Some Group_not_found).
Proof.
  split; [exact sample_state_reachable |].
  exact (proj1 (requestGroupStats_never_accepted (env := sample_env) sample_state 1 8
                  sample_state_reachable)).
Defined.

Lemma analyzeBias_flags_above_threshold_witness :
  decoded (env := sample_env) [90; 2; 1; 10] = Some [90; 2; 1; 10] /\
  analyzeBias (env := sample_env) 7 [90; 2; 1; 10] [1] sample_state
    = Ok (tt, analysed 1 15 10 sample_state) /\
  events (analysed 1 15 10 sample_state) = events sample_state ++ [BiasDetected 1 15].
Proof.
  assert (decoded (env := sample_env) [90; 2; 1; 10] = Some [90; 2; 1; 10]) as H1
    by reflexivity.
  assert (analyzeBias (env := sample_env) 7 [90; 2; 1; 10] [1] sample_state
          = Ok (tt, analysed 1 15 10 sample_state)) as H2 by (vm_compute; reflexivity).
  split; [exact H1 |]. split; [exact H2 |].
  exact (proj1 (proj2 (analyzeBias_flags_above_threshold (env := sample_env)
                         sample_state _ 7 _ _ 90 2 1 10 [] H1 H2))).
Defined.

Lemma analyzeBias_malformed_payload_witness :
  requestToReviewId sample_state @@ 7 ≠ 0 /\
  FHE_signaturesValid (FHEVM := sample_env) 7 [90; 2; 1] [1] = true /\
  transact (AnalyzeBias (env := sample_env) 7 [90; 2; 1] [1]) sample_state
    = (sample_state, Some (Panic PANIC_INDEX)).
Proof.
  assert (requestToReviewId sample_state @@ 7 ≠ 0) as H1 by (vm_compute; discriminate).
  assert (FHE_signaturesValid (FHEVM := sample_env) 7 [90; 2; 1] [1] = true) as H2
    by reflexivity.
  split; [exact H1 |]. split; [exact H2 |].
  apply (proj1 (proj2 (analyzeBias_malformed_payload (env := sample_env) sample_state 7
                         _ _ H1 H2)) [90; 2; 1]); [reflexivity | simpl; lia].
Defined.

Lemma applyCalibration_malformed_payload_witness :
  requestToReviewId sample_state @@ 7 ≠ 0 /\
  FHE_signaturesValid (FHEVM := sample_env) 7 [80] [1] = true /\
  transact (ApplyCalibration (env := sample_env) 7 [80] [1]) sample_state
    = (sample_state, Some (Panic PANIC_INDEX)).
Proof.
  assert (requestToReviewId sample_state @@ 7 ≠ 0) as H1 by (vm_compute; discriminate).
  assert (FHE_signaturesValid (FHEVM := sample_env) 7 [80] [1] = true) as H2
    by reflexivity.
  split; [exact H1 |]. split; [exact H2 |].
  apply (proj2 (applyCalibration_malformed_payload (env := sample_env) sample_state 7
                  _ _ H1 H2) [80]); [reflexivity | simpl; lia].
Defined.

Lemma applyCalibration_frame_witness :
  applyCalibration (env := sample_env) 7 [80; 5] [1] sample_state
    = Ok (tt, calibrated (env := sample_env) 1 85 sample_state) /\
  biasScore (reviewAnalyses (calibrated (env := sample_env) 1 85 sample_state)
               @@ (requestToReviewId sample_state @@ 7))
    = biasScore (reviewAnalyses sample_state @@ (requestToReviewId sample_state @@ 7)).
Proof.
  assert (applyCalibration (env := sample_env) 7 [80; 5] [1] sample_state
          = Ok (tt, calibrated (env := sample_env) 1 85 sample_state)) as H
    by (vm_compute; reflexivity).
  split; [exact H |].
  exact (proj1 (applyCalibration_frame (env := sample_env) sample_state _ 7 _ _ H)).
Defined.

Lemma stored_analysis_consistent_witness :
  reachable (env := sample_env) sample_state /\
  0 <= biasScore (reviewAnalyses sample_state @@ 1) <= MAX_UINT32.
Proof.
  split; [exact sample_state_reachable |].
  exact (proj1 (stored_analysis_consistent (env := sample_env) sample_state 1
                  sample_state_reachable)).
Defined.

Lemma id_zero_never_written_witness :
  reachable (env := sample_env) sample_state /\
  getReviewAnalysis 0 sample_state = Ok ((0, 0, false, false), sample_state).
Proof.
  split; [exact sample_state_reachable |].
  exact (proj2 (proj2 (id_zero_never_written (env := sample_env) sample_state
                         sample_state_reachable))).
Defined.

Lemma analysis_reaches_query_witness :
  reachable (env := sample_env) sample_state /\
  created sample_state 1 /\
  requestBiasAnalysis 1 1 9 sample_state
    = Ok (tt, run [RequestBiasAnalysis (env := sample_env) 1 1 9] sample_state) /\
  FHE_signaturesValid (FHEVM := sample_env) 9 [90; 2; 1; 10] [1] = true /\
  decoded (env := sample_env) [90; 2; 1; 10] = Some [90; 2; 1; 10] /\
  (2 = 1 \/ calculateGroupAverage 2 <= 90) /\
  exists s2,
    analyzeBias (env := sample_env) 9 [90; 2; 1; 10] [1]
      (run [RequestBiasAnalysis (env := sample_env) 1 1 9] sample_state) = Ok (tt, s2) /\
    getReviewAnalysis 1 s2 =
      Ok ((bias_of 90 2 1, calibratedScore (reviewAnalyses sample_state @@ 1),
           10 <? bias_of 90 2 1, isCalibrated (reviewAnalyses sample_state @@ 1)), s2).
Proof.
  assert (created sample_state 1) as H2 by (exists 1000; vm_compute; auto).
  assert (requestBiasAnalysis 1 1 9 sample_state
          = Ok (tt, run [RequestBiasAnalysis (env := sample_env) 1 1 9] sample_state))
    as HR by (vm_compute; reflexivity).
  assert (FHE_signaturesValid (FHEVM := sample_env) 9 [90; 2; 1; 10] [1] = true) as H3
    by reflexivity.
  assert (decoded (env := sample_env) [90; 2; 1; 10] = Some [90; 2; 1; 10]) as H4
    by reflexivity.
  assert (2 = 1 \/ calculateGroupAverage 2 <= 90) as H5
    by (right; vm_compute; discriminate).
  split; [exact sample_state_reachable |]. split; [exact H2 |]. split; [exact HR |].
  split; [exact H3 |]. split; [exact H4 |]. split; [exact H5 |].
  exact (analysis_reaches_query (env := sample_env) sample_state _ 1 1 9 _ _ 90 2 1 10 []
           sample_state_reachable H2 HR H3 H4 H5).
Defined.

Lemma sample_decrypt_asEuint32 (v : Z) :
  is_uint32 v = true -> sample_decrypt (FHE_asEuint32 (FHEVM := sample_env) v) = v.
Proof. intros _. unfold sample_decrypt. simpl. lia. Qed.

Lemma sample_decrypt_add (a b : euint32) :
  sample_decrypt (FHE_add (FHE_arith := sample_arith) a b)
    = (sample_decrypt a + sample_decrypt b) mod 2 ^ 32.
Proof. unfold sample_decrypt. simpl. unfold sample_decrypt. lia. Qed.

Lemma sample_decrypt_div (a b : euint32) :
  sample_decrypt b ≠ 0 ->
  sample_decrypt (FHE_div (FHE_arith := sample_arith) a b)
    = sample_decrypt a / sample_decrypt b.
Proof. intros _. unfold sample_decrypt. simpl. unfold sample_decrypt. lia. Qed.

Lemma department_stats_wrapped_mean_witness :
  to_uint32 (Z.of_nat (length [4294967296; 6])) ≠ 0 /\
  sample_decrypt
    (calculateDepartmentStats (env := sample_env) (arith := sample_arith) [4294967296; 6])
    = (sumZ (map sample_decrypt [4294967296; 6]) mod 2 ^ 32)
      / to_uint32 (Z.of_nat (length [4294967296; 6])) /\
  (sumZ (map sample_decrypt [4294967296; 6]) mod 2 ^ 32)
      / to_uint32 (Z.of_nat (length [4294967296; 6])) = 2.
Proof.
  assert (to_uint32 (Z.of_nat (length [4294967296; 6])) ≠ 0) as H
    by (vm_compute; discriminate).
  split; [exact H |]. split; [| vm_compute; reflexivity].
  exact (department_stats_wrapped_mean (env := sample_env) (arith := sample_arith)
           sample_decrypt sample_decrypt_asEuint32 sample_decrypt_add sample_decrypt_div
           [4294967296; 6] H).
Defined.

(** ** From the submission of a review to the request for its analysis *)

Section Protocol.

Context `{env : FHEVM}.

(** X21: whatever calls come between the submission of a review and the
    request for its analysis, a [requestBiasAnalysis] for it that goes
    through has asked the oracle to decrypt exactly the three handles the
    review was submitted with, followed by the threshold handle of the
    model, in the order in which the callback decodes them, and has mapped
    the request id to the review. *)
Theorem request_sends_submitted_handles (s s' s2 : State) (score rg re : euint32)
    (ts : Z) (cs : list call) (m o : Z) :
  submitPerformanceReview score rg re ts s = Ok (tt, s') ->
  requestBiasAnalysis (reviewCount s') m o (run cs s') = Ok (tt, s2) ->
  decryptionRequests s2 = decryptionRequests (run cs s') ++
    [mkDecryptionRequest o
       [score; rg; re; encryptedBiasThreshold (biasModels (run cs s') @@ m)]
       analyzeBias_selector] /\
  requestToReviewId s2 @@ o = reviewCount s'.
Proof.
  intros E E2.
  apply (dispatch_effect (SubmitPerformanceReview score rg re ts)) in E.
  destruct E as [Hle E].
  assert (reviewCount s' <= reviewCount s') as Hid by lia.
  destruct (run_same_submission cs s' (reviewCount s') Hid) as (_ & H2 & H3 & H4 & _).
  assert (performanceReviews s' @@ reviewCount s'
          = mkEncryptedReview (reviewCount s') score rg re (FHE_asEuint32 0) ts) as Hrec.
  { rewrite E. simpl. by rewrite slot_insert_eq. }
  rewrite Hrec in H2, H3, H4. simpl in H2, H3, H4.
  apply (dispatch_effect (RequestBiasAnalysis (reviewCount s') m o)) in E2.
  simpl in E2. rewrite E2. simpl. rewrite H2, H3, H4, slot_insert_eq. done.
Qed.

End Protocol.

Lemma request_sends_submitted_handles_witness :
  submitPerformanceReview (env := sample_env) 101 102 103 1000 initial
    = Ok (tt, run [SubmitPerformanceReview (env := sample_env) 101 102 103 1000] initial) /\
  requestBiasAnalysis 1 1 7
    (run [AddBiasModel (env := sample_env) 104 105]
       (run [SubmitPerformanceReview (env := sample_env) 101 102 103 1000] initial))
    = Ok (tt, sample_state) /\
  decryptionRequests sample_state
    = [mkDecryptionRequest 7 [101; 102; 103; 104] analyzeBias_selector].
Proof.
  assert (submitPerformanceReview (env := sample_env) 101 102 103 1000 initial
          = Ok (tt, run [SubmitPerformanceReview (env := sample_env) 101 102 103 1000]
                      initial)) as H by (vm_compute; reflexivity).
  assert (requestBiasAnalysis 1 1 7
            (run [AddBiasModel (env := sample_env) 104 105]
               (run [SubmitPerformanceReview (env := sample_env) 101 102 103 1000] initial))
          = Ok (tt, sample_state)) as H2 by (vm_compute; reflexivity).
  split; [exact H |]. split; [exact H2 |].
  exact (proj1 (request_sends_submitted_handles (env := sample_env) initial _ sample_state
                  101 102 103 1000 [AddBiasModel (env := sample_env) 104 105] 1 7 H H2)).
Defined.
